(** * file_renamer: a batch file-renaming script

    Shallow embedding of [file_renamer.py] and the properties its
    specification states about it.

    Python strings are modelled as [string], the bytes of their UTF-8
    encoding: what the script does with them structurally (concatenation,
    comparison, prefix and suffix tests, the search for the dot and the
    slash) is the same on the encoding as on the text.  The builtins whose
    results depend on the Unicode tables of the interpreter, [str.strip],
    [str.lower] and [int], are an interface, [Runtime], whose laws say what
    they do on ASCII text; Python integers are [Z].  The operating system
    is an interface, [OS].  The program is written against both
    interfaces, and the theorems hold for every implementation of them.
    Terminal input is the list of lines still to be read; everything the
    program does to its environment (text written, operating-system calls)
    is appended to a trace. *)

From Stdlib Require Import ZArith List String Ascii Lia Bool.
From Stdlib Require Import DecimalString DecimalZ.
Import ListNotations.

Open Scope string_scope.
Open Scope Z_scope.

(** ** Builtins of the Python runtime used by the script *)

Module Py.

(** The newline character, written [\n] in the source. *)
Definition nl : string := String (ascii_of_nat 10) "".

(** [str(n)] for an integer. *)
Definition str (n : Z) : string := NilZero.string_of_int (Z.to_int n).

(** [len(s)] and [len(l)]. *)
Definition len (s : string) : Z := Z.of_nat (String.length s).
Definition llen {A} (l : list A) : Z := Z.of_nat (List.length l).

(** [s[i]] for [0 <= i < len(s)]; out of that range the source would
    raise IndexError, here the result is the NUL character. *)
Definition char_at (s : string) (i : Z) : ascii :=
  match String.get (Z.to_nat i) s with
  | Some c => c
  | None => zero
  end.

(** [s[i:]] and [s[:i]] for [0 <= i]. *)
Definition slice_from (s : string) (i : Z) : string :=
  substring (Z.to_nat i) (String.length s - Z.to_nat i) s.
Definition slice_to (s : string) (i : Z) : string :=
  substring 0 (Z.to_nat i) s.

(** [string.ascii_lowercase]. *)
Definition ascii_lowercase : string := "abcdefghijklmnopqrstuvwxyz".

(** Strings of ASCII characters. *)
Definition is_ascii_char (c : ascii) : bool := (nat_of_ascii c <? 128)%nat.

Fixpoint is_ascii (s : string) : bool :=
  match s with
  | "" => true
  | String c r => is_ascii_char c && is_ascii r
  end.

(** The ASCII characters for which [str.isspace] holds: tab to carriage
    return, the four separators 28 to 31, and the space. *)
Definition is_space (c : ascii) : bool :=
  let n := nat_of_ascii c in
  ((9 <=? n) && (n <=? 13) || (28 <=? n) && (n <=? 32))%nat.

(** The characters C's [isspace] holds for, the ones [int()] skips around
    an ASCII literal: tab to carriage return, and the space. *)
Definition is_c_space (c : ascii) : bool :=
  let n := nat_of_ascii c in
  ((9 <=? n) && (n <=? 13) || (n =? 32))%nat.

Fixpoint lstrip (space : ascii -> bool) (s : string) : string :=
  match s with
  | "" => ""
  | String c r => if space c then lstrip space r else s
  end.

Fixpoint rstrip (space : ascii -> bool) (s : string) : string :=
  match s with
  | "" => ""
  | String c r =>
      match rstrip space r with
      | "" => if space c then "" else String c ""
      | r' => String c r'
      end
  end.

(** [s.strip()] on ASCII text. *)
Definition ascii_strip (s : string) : string := rstrip is_space (lstrip is_space s).

Definition lower_char (c : ascii) : ascii :=
  let n := nat_of_ascii c in
  if ((65 <=? n) && (n <=? 90))%nat then ascii_of_nat (n + 32) else c.

(** [s.lower()] on ASCII text. *)
Fixpoint ascii_lower (s : string) : string :=
  match s with
  | "" => ""
  | String c r => String (lower_char c) (ascii_lower r)
  end.

(** Strings with one of the letters [A] to [Z] in them. *)
Definition is_upper (c : ascii) : bool :=
  let n := nat_of_ascii c in ((65 <=? n) && (n <=? 90))%nat.

Fixpoint has_upper (s : string) : bool :=
  match s with
  | "" => false
  | String c r => is_upper c || has_upper r
  end.

(** [s.startswith(p)] and [s.endswith(p)]. *)
Definition startswith (s p : string) : bool := String.prefix p s.

Definition endswith (s p : string) : bool :=
  (String.length p <=? String.length s)%nat
  && String.eqb (substring (String.length s - String.length p) (String.length p) s) p.

(** [s.rfind(c)] for a one-character [c]: the highest index holding [c],
    or -1. *)
Fixpoint rfind_from (s : string) (c : ascii) (i last : Z) : Z :=
  match s with
  | "" => last
  | String a r => rfind_from r c (i + 1) (if Ascii.eqb a c then i else last)
  end.

Definition rfind (s : string) (c : ascii) : Z := rfind_from s c 0 (-1).

(** Truth value of a string: [if s:] is taken when [s] is not empty. *)
Definition truthy (s : string) : bool := negb (String.eqb s "").

Definition is_digit (c : ascii) : bool :=
  let n := nat_of_ascii c in ((48 <=? n) && (n <=? 57))%nat.

Definition digit_value (c : ascii) : Z := Z.of_nat (nat_of_ascii c) - 48.

(** The digits of an integer literal as [int()] reads them: decimal digits,
    single underscores allowed between two digits. *)
Fixpoint digits_value (s : string) (acc : Z) (after_digit : bool) : option Z :=
  match s with
  | "" => if after_digit then Some acc else None
  | String c r =>
      if is_digit c then digits_value r (acc * 10 + digit_value c) true
      else if Ascii.eqb c "_" then
        if after_digit then digits_value r acc false else None
      else None
  end.

(** [int(s)] on ASCII text: [None] stands for ValueError. *)
Definition ascii_int (s : string) : option Z :=
  match rstrip is_c_space (lstrip is_c_space s) with
  | String "+" r => digits_value r 0 false
  | String "-" r => option_map Z.opp (digits_value r 0 false)
  | r => digits_value r 0 false
  end.

(** The three builtins whose results depend on the Unicode tables of the
    interpreter, [str.strip], [str.lower] and [int] ([None] standing for
    ValueError), are an interface.  What is assumed of them is what they do
    on ASCII text (for [int], on literals short enough for every setting of
    the interpreter's digit limit), and that lowercasing leaves none of the
    letters [A] to [Z]. *)
Class Runtime := {
  strip : string -> string;
  lower : string -> string;
  int : string -> option Z;
  strip_on_ascii : forall s, is_ascii s = true -> strip s = ascii_strip s;
  lower_on_ascii : forall s, is_ascii s = true -> lower s = ascii_lower s;
  int_on_ascii : forall s,
    is_ascii s = true -> (String.length s <= 640)%nat -> int s = ascii_int s;
  lower_has_no_upper : forall s, has_upper (lower s) = false
}.

End Py.

(** ** [os.path], the pure part (posixpath) *)

Module OsPath.
Import Py.

(** [os.path.join(a, b)]. *)
Definition join (a b : string) : string :=
  if startswith b "/" then b
  else if negb (truthy a) || endswith a "/" then a ++ b
  else a ++ "/" ++ b.

(** The loop of [genericpath._splitext] that skips leading dots:
    [n] is the number of iterations left, [dotIndex - filenameIndex];
    [true] when a character other than the dot is met. *)
Fixpoint has_stem (n : nat) (p : string) (filenameIndex : Z) : bool :=
  match n with
  | O => false
  | S n' =>
      if negb (Ascii.eqb (char_at p filenameIndex) ".") then true
      else has_stem n' p (filenameIndex + 1)
  end.

(** [os.path.splitext(p)]. *)
Definition splitext (p : string) : string * string :=
  let sepIndex := rfind p "/" in
  let dotIndex := rfind p "." in
  if (dotIndex >? sepIndex)
     && has_stem (Z.to_nat (dotIndex - (sepIndex + 1))) p (sepIndex + 1)
  then (slice_to p dotIndex, slice_from p dotIndex)
  else (p, "").

End OsPath.

(** ** Suffix generator: [generate_suffix] *)

Import Py.

(** The [while index > 0] loop of [generate_suffix].  [fuel] bounds the
    number of iterations; [None] means the bound was reached with the loop
    still running. *)
Fixpoint generate_suffix_loop (fuel : nat) (index : Z) (result : string)
  : option string :=
  if index >? 0 then
    match fuel with
    | O => None
    | S fuel' =>
        let index := index - 1 in
        let result := String (char_at ascii_lowercase (index mod 26)) result in
        let index := index / 26 in
        generate_suffix_loop fuel' index result
    end
  else Some result.

Definition generate_suffix_fuel (fuel : nat) (index numbering_style : Z)
  : option string :=
  if numbering_style =? 1 then Some (str index)
  else generate_suffix_loop fuel index "".

(** Iterations that are always enough: each one at least halves [index]. *)
Definition suffix_fuel (index : Z) : nat := S (Z.to_nat (Z.log2 index)).

(** [generate_suffix(index, numbering_style)].  The loop is run with
    [suffix_fuel index] iterations allowed; that is always enough
    ([generate_suffix_fuel_total] below), so the [None] branch is never
    taken. *)
Definition generate_suffix (index numbering_style : Z) : string :=
  match generate_suffix_fuel (suffix_fuel index) index numbering_style with
  | Some s => s
  | None => ""
  end.

(** ** The environment: operating system, terminal, trace *)

(** The subclasses of OSError the script tells apart, and the rest. *)
Inductive oserror_kind := FileNotFoundError | PermissionError | OtherOSError.

(** An OSError: its class and its text, [str(e)]. *)
Record oserror := { err_kind : oserror_kind; err_text : string }.

(** The operating-system calls of the script, over a file-system state
    [FS].  [getcwd], [listdir] and [rename] fail with an OSError; [isfile]
    and [exists_] answer [False] instead of failing, as [os.path] does. *)
Class OS (FS : Type) := {
  getcwd : FS -> string + oserror;
  listdir : FS -> string -> list string + oserror;
  isfile : FS -> string -> bool;
  exists_ : FS -> string -> bool;
  rename : FS -> string -> string -> FS + oserror
}.

(** What the program does to its environment, in order. *)
Inductive event :=
| Print (text : string)                  (* print(text) *)
| Prompt (text : string)                 (* the prompt of input(text) *)
| Getcwd                                 (* os.getcwd() *)
| Listdir (path : string)                (* os.listdir(path) *)
| PathIsfile (path : string)             (* os.path.isfile(path) *)
| PathExists (path : string)             (* os.path.exists(path) *)
| Rename (src dst : string) (ok : bool). (* os.rename(src, dst), and whether it succeeded *)

(** Exceptions the script lets escape. *)
Inductive exn := EOFError | OSError (e : oserror).

Inductive result (A : Type) := Ok (a : A) | Raise (e : exn).
Arguments Ok {A} a.
Arguments Raise {A} e.

(** [stdin]: the lines not read yet; [trace]: the events so far;
    [fs]: the file system. *)
Record world (FS : Type) := World {
  stdin : list string;
  trace : list event;
  fs : FS
}.
Arguments World {FS} stdin trace fs.
Arguments stdin {FS} w.
Arguments trace {FS} w.
Arguments fs {FS} w.

(** The dictionary returned by [get_user_preferences]. *)
Record preferences := Preferences {
  directory : string;
  common_name : string;
  numbering_style : Z;
  start_index : Z;
  extension_filter : string
}.

(** Computations: a state monad over the world, with exceptions. *)
Definition M (FS A : Type) : Type := world FS -> result A * world FS.

Definition ret {FS A} (a : A) : M FS A := fun w => (Ok a, w).

Definition bind {FS A B} (m : M FS A) (k : A -> M FS B) : M FS B :=
  fun w =>
    match m w with
    | (Ok a, w') => k a w'
    | (Raise e, w') => (Raise e, w')
    end.

Notation "x <- m ;; k" := (bind m (fun x => k))
  (at level 61, m at next level, right associativity).
Notation "m ;; k" := (bind m (fun _ => k))
  (at level 61, right associativity).

(** [try: m  except ...: h]: the handler picks the exceptions it takes. *)
Definition try_except {FS A} (m : M FS A) (h : exn -> option (M FS A)) : M FS A :=
  fun w =>
    match m w with
    | (Ok a, w') => (Ok a, w')
    | (Raise e, w') =>
        match h e with
        | Some k => k w'
        | None => (Raise e, w')
        end
    end.

Definition emit {FS} (ev : event) (w : world FS) : world FS :=
  World (stdin w) (trace w ++ [ev])%list (fs w).

(** [print(text)]. *)
Definition print {FS} (text : string) : M FS unit :=
  fun w => (Ok tt, emit (Print text) w).

(** [input(text)]: EOFError when no line is left. *)
Definition input {FS} (text : string) : M FS string :=
  fun w =>
    match stdin w with
    | [] => (Raise EOFError, emit (Prompt text) w)
    | line :: rest => (Ok line, World rest (trace w ++ [Prompt text])%list (fs w))
    end.

Section Program.

Context {FS : Type} {os : OS FS} {rt : Runtime}.

Definition os_getcwd : M FS string :=
  fun w =>
    match getcwd (fs w) with
    | inl path => (Ok path, emit Getcwd w)
    | inr e => (Raise (OSError e), emit Getcwd w)
    end.

Definition os_listdir (path : string) : M FS (list string) :=
  fun w =>
    match listdir (fs w) path with
    | inl names => (Ok names, emit (Listdir path) w)
    | inr e => (Raise (OSError e), emit (Listdir path) w)
    end.

Definition os_path_isfile (path : string) : M FS bool :=
  fun w => (Ok (isfile (fs w) path), emit (PathIsfile path) w).

Definition os_path_exists (path : string) : M FS bool :=
  fun w => (Ok (exists_ (fs w) path), emit (PathExists path) w).

Definition os_rename (src dst : string) : M FS unit :=
  fun w =>
    match rename (fs w) src dst with
    | inl fs' => (Ok tt, World (stdin w) (trace w ++ [Rename src dst true])%list fs')
    | inr e => (Raise (OSError e), emit (Rename src dst false) w)
    end.

(** ** Preference collector: [get_user_preferences] *)

(** The loop that asks for the numbering style, on the lines left. *)
Fixpoint ask_choice_loop (lines : list string) (tr : list event)
  : result Z * list string * list event :=
  let tr := (tr ++ [Prompt "Enter your choice (1 or 2): "])%list in
  match lines with
  | [] => (Raise EOFError, [], tr)
  | line :: rest =>
      match int line with
      | Some choice =>
          if (choice =? 1) || (choice =? 2) then (Ok choice, rest, tr)
          else ask_choice_loop rest (tr ++ [Print "Please enter 1 or 2"])%list
      | None =>
          ask_choice_loop rest (tr ++ [Print "Please enter a valid number (1 or 2)"])%list
      end
  end.

Definition ask_choice : M FS Z :=
  fun w =>
    let '(r, lines, tr) := ask_choice_loop (stdin w) (trace w) in
    (r, World lines tr (fs w)).

(** The loop that asks for the starting index, on the lines left. *)
Fixpoint ask_start_index_loop (lines : list string) (tr : list event)
  : result Z * list string * list event :=
  let tr := (tr ++ [Prompt "Enter starting number/letter index (default is 1): "])%list in
  match lines with
  | [] => (Raise EOFError, [], tr)
  | line :: rest =>
      match int (if truthy line then line else "1") with
      | Some start_index =>
          if start_index >=? 0 then (Ok start_index, rest, tr)
          else ask_start_index_loop rest (tr ++ [Print "Please enter a non-negative number"])%list
      | None =>
          ask_start_index_loop rest (tr ++ [Print "Please enter a valid number"])%list
      end
  end.

Definition ask_start_index : M FS Z :=
  fun w =>
    let '(r, lines, tr) := ask_start_index_loop (stdin w) (trace w) in
    (r, World lines tr (fs w)).

Definition get_user_preferences : M FS (option preferences) :=
  print "=== File Renaming Automation ===" ;;
  directory <- input "Enter the directory path (or press Enter for current directory): " ;;
  let directory := strip directory in
  directory <- (if negb (truthy directory) then os_getcwd else ret directory) ;;
  common_name <- input "Enter the common name for all files: " ;;
  let common_name := strip common_name in
  if negb (truthy common_name) then
    print "Error: Common name cannot be empty!" ;;
    ret None
  else
    print (nl ++ "Choose numbering style:") ;;
    print "1. Numbers (file_1, file_2, ...)" ;;
    print "2. Letters (file_a, file_b, ...)" ;;
    choice <- ask_choice ;;
    start_index <- ask_start_index ;;
    extension_filter <-
      input "Enter file extension to filter by (e.g., '.jpg', '.png', or press Enter for all files): " ;;
    let extension_filter := lower (strip extension_filter) in
    ret (Some (Preferences directory common_name choice start_index extension_filter)).

(** ** File lister: [get_files_to_rename] *)

(** [[f for f in names if os.path.isfile(os.path.join(directory, f))]]. *)
Fixpoint keep_files (directory : string) (names : list string) : M FS (list string) :=
  match names with
  | [] => ret []
  | f :: rest =>
      b <- os_path_isfile (OsPath.join directory f) ;;
      fs <- keep_files directory rest ;;
      ret (if b then f :: fs else fs)
  end.

Definition get_files_to_rename (directory extension_filter : string)
  : M FS (option (list string)) :=
  try_except
    (names <- os_listdir directory ;;
     all_files <- keep_files directory names ;;
     if truthy extension_filter then
       let extension_filter :=
         if negb (startswith extension_filter ".") then "." ++ extension_filter
         else extension_filter in
       let filtered_files :=
         filter (fun f => endswith (lower f) extension_filter) all_files in
       print ("Found " ++ str (llen filtered_files) ++ " files with extension '"
              ++ extension_filter ++ "'") ;;
       ret (Some filtered_files)
     else
       print ("Found " ++ str (llen all_files) ++ " files in directory") ;;
       ret (Some all_files))
    (fun e =>
       match e with
       | OSError {| err_kind := FileNotFoundError |} =>
           Some (print ("Error: Directory '" ++ directory ++ "' not found!") ;;
                 ret None)
       | OSError {| err_kind := PermissionError |} =>
           Some (print ("Error: Permission denied to access directory '"
                        ++ directory ++ "'!") ;;
                 ret None)
       | _ => None
       end).

(** ** Renamer: [rename_files] *)

(** The rest of the loop body once [new_filename] is computed: the
    collision check, then the rename inside its [try].  [continue] is
    written as leaving with the counter unchanged. *)
Definition rename_to (directory filename new_filename : string)
    (renamed_count : Z) : M FS Z :=
  let new_filepath := OsPath.join directory new_filename in
  let old_filepath := OsPath.join directory filename in
  found <- os_path_exists new_filepath ;;
  if found then
    print ("Warning: " ++ new_filename ++ " already exists! Skipping " ++ filename) ;;
    ret renamed_count
  else
    try_except
      (os_rename old_filepath new_filepath ;;
       print ("Renamed: " ++ filename ++ " -> " ++ new_filename) ;;
       ret (renamed_count + 1))
      (fun e =>
         match e with
         | OSError e =>
             Some (print ("Error renaming " ++ filename ++ ": " ++ err_text e) ;;
                   ret renamed_count)
         | _ => None
         end).

(** The [for i, filename in enumerate(files, start=start_index)] loop, from
    position [i], with the counter [renamed_count] so far. *)
Fixpoint rename_loop (directory : string) (common_name : string)
    (numbering_style : Z) (i : Z) (files : list string) (renamed_count : Z)
  : M FS Z :=
  match files with
  | [] => ret renamed_count
  | filename :: rest =>
      let file_extension := snd (OsPath.splitext filename) in
      let suffix := generate_suffix i numbering_style in
      let new_filename := common_name ++ "_" ++ suffix ++ file_extension in
      renamed_count <- rename_to directory filename new_filename renamed_count ;;
      rename_loop directory common_name numbering_style (i + 1) rest renamed_count
  end.

Definition rename_files (directory : string) (files : list string)
    (common_name : string) (numbering_style start_index : Z) : M FS Z :=
  print (nl ++ "Renaming " ++ str (llen files) ++ " files...") ;;
  rename_loop directory common_name numbering_style start_index files 0.

(** ** Preview and confirmation: [preview_changes] *)

(** The [for i, filename in enumerate(files[:5], start=start_index)] loop. *)
Fixpoint preview_loop (common_name : string) (numbering_style : Z) (i : Z)
    (files : list string) : M FS unit :=
  match files with
  | [] => ret tt
  | filename :: rest =>
      let file_extension := snd (OsPath.splitext filename) in
      let suffix := generate_suffix i numbering_style in
      let new_filename := common_name ++ "_" ++ suffix ++ file_extension in
      print (filename ++ " -> " ++ new_filename) ;;
      preview_loop common_name numbering_style (i + 1) rest
  end.

(** ["-" * 40]. *)
Definition rule : string := "----------------------------------------".

Definition preview_changes (directory : string) (files : list string)
    (common_name : string) (numbering_style start_index : Z) : M FS bool :=
  print (nl ++ "=== PREVIEW OF CHANGES ===") ;;
  print "Old names -> New names" ;;
  print rule ;;
  preview_loop common_name numbering_style start_index (firstn 5 files) ;;
  (if llen files >? 5
   then print ("... and " ++ str (llen files - 5) ++ " more files")
   else ret tt) ;;
  answer <- input (nl ++ "Proceed with renaming? (y/n): ") ;;
  ret (String.eqb (lower (strip answer)) "y").

(** ** [main] *)

(** Truth value of the file lister's result: [None] and the empty list
    are both false. *)
Definition files_truthy (files : option (list string)) : bool :=
  match files with
  | Some (_ :: _) => true
  | _ => false
  end.

(** Steps 3 to 5 of [main]: from the preview on. *)
Definition main_confirm_and_rename (p : preferences) (files : list string) : M FS unit :=
  go <- preview_changes (directory p) files (common_name p)
          (numbering_style p) (start_index p) ;;
  if negb go then
    print "Renaming cancelled by user."
  else
    renamed_count <- rename_files (directory p) files (common_name p)
                       (numbering_style p) (start_index p) ;;
    print (nl ++ "=== RENAMING COMPLETE ===") ;;
    print ("Successfully renamed " ++ str renamed_count ++ " out of "
           ++ str (llen files) ++ " files").

(** [main] once the file lister has answered [files]. *)
Definition main_after_listing (p : preferences) (files : option (list string))
  : M FS unit :=
  if negb (files_truthy files) then
    print "No files found to rename!"
  else
    main_confirm_and_rename p (match files with Some l => l | None => [] end).

Definition main : M FS unit :=
  preferences <- get_user_preferences ;;
  match preferences with
  | None => ret tt
  | Some p =>
      files <- get_files_to_rename (directory p) (extension_filter p) ;;
      main_after_listing p files
  end.

End Program.

(** ** Concrete environments for the runs *)

Lemma ascii_lower_has_no_upper s : has_upper (ascii_lower s) = false.
Proof.
  induction s as [|c s IH]; [reflexivity|]. simpl. rewrite IH, orb_false_r.
  unfold is_upper, lower_char.
  destruct ((65 <=? nat_of_ascii c)%nat && (nat_of_ascii c <=? 90)%nat) eqn:E;
    [|assumption].
  apply andb_prop in E as [H1 H2]. apply Nat.leb_le in H1, H2.
  rewrite nat_ascii_embedding by lia.
  apply andb_false_iff. right. apply Nat.leb_gt. lia.
Qed.

(** The builtins of an interpreter that is given ASCII text only: the
    runs below are all on such text, where every [Runtime] agrees with it. *)
#[export] Instance ascii_runtime : Runtime := {|
  strip := ascii_strip;
  lower := ascii_lower;
  int := ascii_int;
  strip_on_ascii := fun s _ => eq_refl;
  lower_on_ascii := fun s _ => eq_refl;
  int_on_ascii := fun s _ _ => eq_refl;
  lower_has_no_upper := ascii_lower_has_no_upper
|}.

(** A small file system to run the script on: one directory, [home],
    whose entries are kept in enumeration order; [locked] names the entries
    the system refuses to rename. *)

Module Disk.

Inductive kind := File | Dir.

Record disk := {
  cwd : string;
  home : string;
  readable : bool;
  entries : list (string * kind);
  locked : list string
}.

Definition lookup (d : disk) (path : string) : option (string * kind) :=
  find (fun e => String.eqb (OsPath.join (home d) (fst e)) path) (entries d).

(** The name [path] has inside [home], when it lies directly in it. *)
Fixpoint strip_prefix (pre s : string) : option string :=
  match pre, s with
  | "", _ => Some s
  | String a pre', String b s' => if Ascii.eqb a b then strip_prefix pre' s' else None
  | _, _ => None
  end.

Definition name_in (d : disk) (path : string) : option string :=
  match strip_prefix (OsPath.join (home d) "") path with
  | Some n => if String.eqb (OsPath.join (home d) n) path && negb (String.eqb n "")
              then Some n else None
  | None => None
  end.

Definition disk_rename (d : disk) (src dst : string) : disk + oserror :=
  match lookup d src with
  | None =>
      inr {| err_kind := FileNotFoundError;
             err_text := "[Errno 2] No such file or directory: '" ++ src
                         ++ "' -> '" ++ dst ++ "'" |}
  | Some (n, k) =>
      if existsb (String.eqb n) (locked d) then
        inr {| err_kind := PermissionError;
               err_text := "[Errno 13] Permission denied: '" ++ src
                           ++ "' -> '" ++ dst ++ "'" |}
      else
        match name_in d dst with
        | None =>
            inr {| err_kind := OtherOSError;
                   err_text := "[Errno 18] Invalid cross-device link: '" ++ src
                               ++ "' -> '" ++ dst ++ "'" |}
        | Some n' =>
            inl {| cwd := cwd d; home := home d; readable := readable d;
                   entries :=
                     map (fun e => if String.eqb (fst e) n then (n', k) else e)
                       (filter (fun e => String.eqb (fst e) n
                                         || negb (String.eqb (fst e) n'))
                          (entries d));
                   locked := locked d |}
        end
  end.

#[export] Instance disk_os : OS disk := {
  getcwd d := inl (cwd d);
  listdir d path :=
    if String.eqb path (home d) then
      if readable d then inl (map fst (entries d))
      else inr {| err_kind := PermissionError;
                  err_text := "[Errno 13] Permission denied: '" ++ path ++ "'" |}
    else inr {| err_kind := FileNotFoundError;
                err_text := "[Errno 2] No such file or directory: '" ++ path ++ "'" |};
  isfile d path :=
    match lookup d path with Some (_, File) => true | _ => false end;
  exists_ d path :=
    match lookup d path with Some _ => true | None => String.eqb path (home d) end;
  rename := disk_rename
}.

(** Three pictures and a sub-directory in [pics]. *)
Definition pics : disk := {|
  cwd := "/home/u";
  home := "pics";
  readable := true;
  entries := [("x.png", File); ("old", Dir); ("y.png", File); ("z.PNG", File)];
  locked := []
|}.

(** The same directory with [photo_1.png] already there and [y.png]
    locked. *)
Definition crowded : disk := {|
  cwd := "/home/u";
  home := "pics";
  readable := true;
  entries := [("x.png", File); ("photo_1.png", File); ("y.png", File)];
  locked := ["y.png"]
|}.

(** A directory of documents. *)
Definition docs : disk := {|
  cwd := "/home/u";
  home := "docs";
  readable := true;
  entries := [("a.txt", File); ("b.txt", File); ("c.jpg", File)];
  locked := []
|}.

End Disk.

Import Disk.

(** ** The specification's vocabulary *)

(** Bijective base 26: the letters [a] to [z] are the digits 1 to 26, the
    most significant first. *)
Definition letter_value (c : ascii) : Z := Z.of_nat (nat_of_ascii c) - 96.

Definition is_lower (c : ascii) : bool :=
  let n := nat_of_ascii c in ((97 <=? n) && (n <=? 122))%nat.

Fixpoint all_lower (s : string) : bool :=
  match s with
  | "" => true
  | String c r => is_lower c && all_lower r
  end.

Fixpoint bijective26_from (acc : Z) (s : string) : Z :=
  match s with
  | "" => acc
  | String c r => bijective26_from (acc * 26 + letter_value c) r
  end.

Definition bijective26_value (s : string) : Z := bijective26_from 0 s.

(** The number a decimal string denotes: digits only, no leading zero. *)
Fixpoint decimal_from (acc : Z) (s : string) : option Z :=
  match s with
  | "" => Some acc
  | String c r =>
      if is_digit c then decimal_from (acc * 10 + digit_value c) r else None
  end.

Definition decimal_value (s : string) : option Z :=
  match s with
  | "" => None
  | String c r => if Ascii.eqb c "0" && truthy r then None else decimal_from 0 s
  end.

(** Horner evaluation of a decimal numeral of the standard library. *)
Fixpoint horner (acc : Z) (d : Decimal.uint) : Z :=
  match d with
  | Decimal.Nil => acc
  | Decimal.D0 l => horner (acc * 10 + 0) l
  | Decimal.D1 l => horner (acc * 10 + 1) l
  | Decimal.D2 l => horner (acc * 10 + 2) l
  | Decimal.D3 l => horner (acc * 10 + 3) l
  | Decimal.D4 l => horner (acc * 10 + 4) l
  | Decimal.D5 l => horner (acc * 10 + 5) l
  | Decimal.D6 l => horner (acc * 10 + 6) l
  | Decimal.D7 l => horner (acc * 10 + 7) l
  | Decimal.D8 l => horner (acc * 10 + 8) l
  | Decimal.D9 l => horner (acc * 10 + 9) l
  end.

(** The new name the specification gives the file at 0-based position [p]:
    [{baseName}_{suffix(startIndex + p, style)}{originalExtension}]. *)
Definition planned_name (baseName : string) (style startIndex : Z) (p : nat)
    (original : string) : string :=
  baseName ++ "_" ++ generate_suffix (startIndex + Z.of_nat p) style
  ++ snd (OsPath.splitext original).

(** An extension filter with its leading dot. *)
Definition dot_normalized (filter : string) : string :=
  if startswith filter "." then filter else "." ++ filter.

(** The events that change the file system, and traces free of them. *)
Definition mutating (e : event) : bool :=
  match e with
  | Rename _ _ _ => true
  | _ => false
  end.

Definition harmless (evs : list event) : bool :=
  forallb (fun e => negb (mutating e)) evs.

(** The number of renames that succeeded in a trace. *)
Fixpoint renames_done (evs : list event) : Z :=
  match evs with
  | [] => 0
  | Rename _ _ true :: r => 1 + renames_done r
  | _ :: r => renames_done r
  end.

(** ** Vocabulary for the further properties *)

(** A string without the dot. *)
Fixpoint dot_free (s : string) : bool :=
  match s with
  | "" => true
  | String c r => negb (Ascii.eqb c ".") && dot_free r
  end.

(** The files of a list with their 0-based positions. *)
Definition positions {A} (l : list A) : list (nat * A) :=
  combine (seq 0 (List.length l)) l.

(** What the numbering-style loop makes of one line: the choice it
    accepts, or else the message it prints before asking again. *)
Definition accepted_choice {rt : Runtime} (line : string) : option Z :=
  match int line with
  | Some choice => if (choice =? 1) || (choice =? 2) then Some choice else None
  | None => None
  end.

Definition choice_complaint {rt : Runtime} (line : string) : string :=
  match int line with
  | Some _ => "Please enter 1 or 2"
  | None => "Please enter a valid number (1 or 2)"
  end.

(** The same for the starting-index loop; a blank line stands for "1". *)
Definition accepted_start {rt : Runtime} (line : string) : option Z :=
  match int (if truthy line then line else "1") with
  | Some start_index => if start_index >=? 0 then Some start_index else None
  | None => None
  end.

Definition start_complaint {rt : Runtime} (line : string) : string :=
  match int (if truthy line then line else "1") with
  | Some _ => "Please enter a non-negative number"
  | None => "Please enter a valid number"
  end.

(** The paths whose existence a trace asks about, in order. *)
Fixpoint checked_paths (evs : list event) : list string :=
  match evs with
  | [] => []
  | PathExists path :: r => path :: checked_paths r
  | _ :: r => checked_paths r
  end.

(** A computation that raises EOFError only with the input used up. *)
Definition eof_at_end {FS A} (m : M FS A) : Prop :=
  forall w w', m w = (Raise EOFError, w') -> stdin w' = [].

(** An operating system on which no directory can be listed: every
    listing fails with NotADirectoryError, an OSError of the third kind. *)
Definition unlistable : OS unit := {|
  getcwd _ := inl "/";
  listdir _ path :=
    inr {| err_kind := OtherOSError;
           err_text := "[Errno 20] Not a directory: '" ++ path ++ "'" |};
  isfile _ _ := false;
  exists_ _ _ := false;
  rename _ src dst :=
    inr {| err_kind := FileNotFoundError;
           err_text := "[Errno 2] No such file or directory: '" ++ src
                       ++ "' -> '" ++ dst ++ "'" |}
|}.

(** * Properties *)

(** ** The suffix generator *)

Lemma nth_letter (k : Z) :
  0 <= k < 26 ->
  letter_value (char_at ascii_lowercase k) = k + 1
  /\ is_lower (char_at ascii_lowercase k) = true.
Proof.
  intros Hk.
  assert (Hn : (Z.to_nat k < 26)%nat) by lia.
  replace k with (Z.of_nat (Z.to_nat k)) at 2 by lia.
  unfold char_at. generalize dependent (Z.to_nat k). intros n Hn.
  do 26 (destruct n as [|n]; [split; reflexivity|]).
  lia.
Qed.

Lemma letter_nth (c : ascii) :
  is_lower c = true -> char_at ascii_lowercase (letter_value c - 1) = c.
Proof.
  intros Hc. unfold is_lower in Hc. apply andb_prop in Hc as [H1 H2].
  apply Nat.leb_le in H1, H2.
  unfold letter_value, char_at.
  rewrite <- (ascii_nat_embedding c) at 2.
  replace (Z.to_nat (Z.of_nat (nat_of_ascii c) - 96 - 1)) with (nat_of_ascii c - 97)%nat by lia.
  generalize dependent (nat_of_ascii c). intros n H1 H2.
  do 97 (destruct n as [|n]; [lia|]).
  do 26 (destruct n as [|n]; [reflexivity|]).
  lia.
Qed.

Lemma letter_value_range c : is_lower c = true -> 1 <= letter_value c <= 26.
Proof.
  unfold is_lower, letter_value. intros Hc.
  apply andb_prop in Hc as [H1 H2]. apply Nat.leb_le in H1, H2. lia.
Qed.

Lemma loop_stop fuel index result :
  index <= 0 -> generate_suffix_loop fuel index result = Some result.
Proof.
  intros Hi. destruct fuel; simpl; destruct (index >? 0) eqn:E; try reflexivity; lia.
Qed.

Lemma loop_step fuel index result :
  0 < index ->
  generate_suffix_loop (S fuel) index result =
  generate_suffix_loop fuel ((index - 1) / 26)
    (String (char_at ascii_lowercase ((index - 1) mod 26)) result).
Proof.
  intros Hi. simpl. destruct (index >? 0) eqn:E; [reflexivity | lia].
Qed.

Lemma loop_variable_decreases index :
  1 <= index -> 0 <= (index - 1) / 26 < index.
Proof.
  intros Hi. split.
  - apply Z.div_pos; lia.
  - apply Z.le_lt_trans with (index - 1); [|lia].
    apply Z.div_le_upper_bound; lia.
Qed.

Lemma loop_mono fuel : forall fuel' index result s,
  generate_suffix_loop fuel index result = Some s ->
  (fuel <= fuel')%nat ->
  generate_suffix_loop fuel' index result = Some s.
Proof.
  induction fuel as [|fuel IH]; intros fuel' index result s Hs Hle.
  - destruct (Z_lt_le_dec 0 index) as [Hi|Hi].
    + simpl in Hs. destruct (index >? 0) eqn:E; [discriminate | lia].
    + rewrite loop_stop in Hs by assumption. now rewrite loop_stop.
  - destruct (Z_lt_le_dec 0 index) as [Hi|Hi].
    + destruct fuel' as [|fuel']; [lia|].
      rewrite loop_step in * by assumption.
      apply IH; [assumption | lia].
    + rewrite loop_stop in Hs by assumption. now rewrite loop_stop.
Qed.

Lemma loop_enough fuel : forall index result,
  index <= 0 \/ Z.log2 index < Z.of_nat fuel ->
  exists s, generate_suffix_loop fuel index result = Some s.
Proof.
  induction fuel as [|fuel IH]; intros index result Hf.
  - exists result. apply loop_stop.
    destruct Hf as [Hf|Hf]; [assumption|].
    pose proof (Z.log2_nonneg index). lia.
  - destruct (Z_lt_le_dec 0 index) as [Hi|Hi].
    + rewrite loop_step by assumption. apply IH.
      destruct Hf as [Hf|Hf]; [lia|].
      destruct (Z_lt_le_dec 0 ((index - 1) / 26)) as [Hq|Hq]; [right | now left].
      assert (H2 : 2 * ((index - 1) / 26) <= index).
      { pose proof (Z.mul_div_le (index - 1) 26 ltac:(lia)). lia. }
      apply Z.log2_le_mono in H2. rewrite Z.log2_double in H2 by assumption. lia.
    + exists result. now apply loop_stop.
Qed.

Lemma suffix_fuel_enough index result :
  exists s, forall fuel, (suffix_fuel index <= fuel)%nat ->
    generate_suffix_loop fuel index result = Some s.
Proof.
  destruct (loop_enough (suffix_fuel index) index result) as [s Hs].
  - right. unfold suffix_fuel. pose proof (Z.log2_nonneg index). lia.
  - exists s. intros fuel Hle. eapply loop_mono; eauto.
Qed.

Lemma bijective26_from_shift s : forall acc,
  bijective26_from acc s = acc * 26 ^ len s + bijective26_from 0 s.
Proof.
  unfold len.
  induction s as [|c s IH]; intros acc; simpl String.length.
  - simpl. lia.
  - cbn [bijective26_from]. rewrite IH, (IH (0 * 26 + _)).
    rewrite Nat2Z.inj_succ, Z.pow_succ_r by lia. lia.
Qed.

Lemma bijective26_cons c s :
  bijective26_value (String c s) = letter_value c * 26 ^ len s + bijective26_value s.
Proof.
  unfold bijective26_value. cbn [bijective26_from].
  rewrite bijective26_from_shift. f_equal.
Qed.

(** Loop invariant: [index * 26 ^ len result + value result] stays the same. *)
Lemma loop_value fuel : forall index result s,
  0 <= index ->
  generate_suffix_loop fuel index result = Some s ->
  bijective26_value s = index * 26 ^ len result + bijective26_value result
  /\ (all_lower result = true -> all_lower s = true).
Proof.
  induction fuel as [|fuel IH]; intros index result s Hi Hs.
  - simpl in Hs. destruct (index >? 0) eqn:E; [discriminate|].
    injection Hs as <-. assert (index = 0) by lia. subst. split; [lia | auto].
  - destruct (Z.eq_dec index 0) as [->|Hn].
    + rewrite loop_stop in Hs by lia. injection Hs as <-. split; [lia | auto].
    + rewrite loop_step in Hs by lia.
      pose proof (loop_variable_decreases index ltac:(lia)) as Hd.
      apply IH in Hs; [|lia]. destruct Hs as [Hv Hl].
      pose proof (Z.mod_pos_bound (index - 1) 26 ltac:(lia)) as Hm.
      destruct (nth_letter _ Hm) as [Hval Hlow].
      split.
      * rewrite Hv, bijective26_cons, Hval.
        unfold len. simpl String.length. rewrite Nat2Z.inj_succ, Z.pow_succ_r by lia.
        pose proof (Z.div_mod (index - 1) 26 ltac:(lia)). nia.
      * intros Hr. apply Hl. simpl. now rewrite Hlow.
Qed.

Lemma decimal_from_uint d : forall acc,
  decimal_from acc (NilEmpty.string_of_uint d) = Some (horner acc d).
Proof.
  induction d; intros acc; simpl; try reflexivity; apply IHd.
Qed.

Lemma of_uint_acc_horner d : forall acc,
  Z.pos (Pos.of_uint_acc d acc) = horner (Z.pos acc) d.
Proof.
  induction d; intros acc; cbn [Pos.of_uint_acc horner]; try reflexivity; rewrite IHd; f_equal; lia.
Qed.

Lemma of_uint_horner d : Z.of_N (Pos.of_uint d) = horner 0 d.
Proof.
  induction d; cbn [Pos.of_uint horner Z.of_N]; try reflexivity; try assumption;
    rewrite of_uint_acc_horner; reflexivity.
Qed.

Lemma to_uint_horner p : horner 0 (Pos.to_uint p) = Z.pos p.
Proof.
  rewrite <- of_uint_horner, DecimalPos.Unsigned.of_to. reflexivity.
Qed.

Lemma nzhead_head u : forall v, Decimal.nzhead u <> Decimal.D0 v.
Proof.
  induction u; intros v; simpl; try discriminate. apply IHu.
Qed.

Lemma to_uint_head p :
  exists c r, NilEmpty.string_of_uint (Pos.to_uint p) = String c r /\ c <> "0"%char.
Proof.
  pose proof (DecimalPos.Unsigned.to_of (Pos.to_uint p)) as Hn.
  rewrite DecimalPos.Unsigned.of_to in Hn. simpl in Hn.
  pose proof (DecimalPos.Unsigned.to_uint_nonzero p) as Hz.
  destruct (Pos.to_uint p) eqn:E; simpl;
    try (eexists; eexists; split; [reflexivity | discriminate]).
  - exfalso. now apply (DecimalPos.Unsigned.to_uint_nonnil p).
  - exfalso. unfold Decimal.unorm in Hn.
    destruct (Decimal.nzhead (Decimal.D0 u)) eqn:Eu;
      try (symmetry in Hn; discriminate Hn).
    + now apply Hz.
    + now apply (nzhead_head (Decimal.D0 u) u0).
Qed.

Lemma str_pos p : str (Z.pos p) = NilEmpty.string_of_uint (Pos.to_uint p).
Proof.
  unfold str. simpl.
  pose proof (DecimalPos.Unsigned.to_uint_nonnil p).
  destruct (Pos.to_uint p); try reflexivity. contradiction.
Qed.

Lemma decimal_value_str index : 1 <= index -> decimal_value (str index) = Some index.
Proof.
  intros Hi. destruct index as [|p|p]; try lia.
  rewrite str_pos.
  destruct (to_uint_head p) as (c & r & E & Hc).
  unfold decimal_value. rewrite E.
  replace (Ascii.eqb c "0") with false.
  - simpl andb. cbv iota. rewrite <- E, decimal_from_uint, to_uint_horner. reflexivity.
  - symmetry. now apply Ascii.eqb_neq.
Qed.

Lemma string_app_nil_r (s : string) : s ++ "" = s.
Proof. induction s; simpl; congruence. Qed.

Lemma string_app_assoc (s t u : string) : (s ++ t) ++ u = s ++ t ++ u.
Proof. induction s; simpl; congruence. Qed.

Lemma string_snoc_split c s :
  exists s' c', String c s = s' ++ String c' ""
                /\ String.length s' = String.length s.
Proof.
  revert c. induction s as [|a s IH]; intros c.
  - exists "", c. split; reflexivity.
  - destruct (IH a) as (s' & c' & E & L).
    exists (String c s'), c'. simpl. rewrite E, L. split; reflexivity.
Qed.

Lemma string_snoc_ind (P : string -> Prop) :
  P "" -> (forall s c, P s -> P (s ++ String c "")) -> forall s, P s.
Proof.
  intros H0 Hs s.
  remember (String.length s) as n eqn:Hn. revert s Hn.
  induction n as [|n IH]; intros s Hn.
  - destruct s; [assumption | discriminate].
  - destruct s as [|c s]; [discriminate|].
    destruct (string_snoc_split c s) as (s' & c' & E & L).
    rewrite E. apply Hs, IH. simpl in Hn. lia.
Qed.

Lemma all_lower_snoc s c :
  all_lower (s ++ String c "") = all_lower s && is_lower c.
Proof.
  induction s as [|a s IH]; simpl.
  - now rewrite andb_true_r.
  - rewrite IH. now rewrite andb_assoc.
Qed.

Lemma bijective26_from_snoc s c : forall acc,
  bijective26_from acc (s ++ String c "")
  = bijective26_from acc s * 26 + letter_value c.
Proof.
  induction s as [|a s IH]; intros acc; simpl; [reflexivity | apply IH].
Qed.

Lemma bijective26_nonneg s : all_lower s = true -> 0 <= bijective26_value s.
Proof.
  induction s as [|s c IH] using string_snoc_ind; intros Hl.
  - unfold bijective26_value. simpl. lia.
  - rewrite all_lower_snoc in Hl. apply andb_prop in Hl as [Hl Hc].
    unfold bijective26_value in *. rewrite bijective26_from_snoc.
    pose proof (letter_value_range c Hc). specialize (IH Hl). lia.
Qed.

(** Running the loop on the value of a lowercase string spells the string. *)
Lemma loop_spells s :
  all_lower s = true ->
  forall result, exists fuel,
    generate_suffix_loop fuel (bijective26_value s) result = Some (s ++ result).
Proof.
  induction s as [|s c IH] using string_snoc_ind; intros Hl result.
  - exists O. reflexivity.
  - rewrite all_lower_snoc in Hl. apply andb_prop in Hl as [Hl Hc].
    destruct (IH Hl (String c result)) as [fuel Hf].
    exists (S fuel).
    pose proof (letter_value_range c Hc) as Hr.
    pose proof (bijective26_nonneg s Hl) as Hn.
    unfold bijective26_value in *. rewrite bijective26_from_snoc.
    set (v := bijective26_from 0 s) in *.
    rewrite loop_step by lia.
    replace (v * 26 + letter_value c - 1) with ((letter_value c - 1) + v * 26) by lia.
    rewrite Z.div_add, Z.mod_add by lia.
    rewrite Z.div_small, Z.mod_small by lia.
    rewrite letter_nth by assumption. simpl Z.add.
    rewrite Hf, string_app_assoc. reflexivity.
Qed.

Lemma generate_suffix_fuel_total index numbering_style fuel :
  (suffix_fuel index <= fuel)%nat ->
  generate_suffix_fuel fuel index numbering_style
  = Some (generate_suffix index numbering_style).
Proof.
  intros Hle. unfold generate_suffix, generate_suffix_fuel.
  destruct (numbering_style =? 1); [reflexivity|].
  destruct (suffix_fuel_enough index "") as [s Hs].
  rewrite (Hs fuel Hle), (Hs _ (Nat.le_refl _)). reflexivity.
Qed.

Lemma generate_suffix_letters index numbering_style fuel s :
  numbering_style <> 1 ->
  generate_suffix_loop fuel index "" = Some s ->
  generate_suffix index numbering_style = s.
Proof.
  intros Hn Hs.
  pose proof (generate_suffix_fuel_total index numbering_style
                (Nat.max fuel (suffix_fuel index)) (Nat.le_max_r _ _)) as Ht.
  unfold generate_suffix_fuel in Ht.
  destruct (numbering_style =? 1) eqn:E; [lia|].
  rewrite (loop_mono _ _ _ _ _ Hs (Nat.le_max_l _ _)) in Ht. congruence.
Qed.

(** C1.  For every index of at least 1: under the numeric style (1) the
    suffix is [str(index)], the decimal string that denotes [index]; under
    the alphabetic style (2) it is made of lowercase letters, its value in
    bijective base 26 is [index], and it is the only such string.  So 1 is
    "a", 2 is "b", 26 is "z", 27 is "aa", 28 is "ab", 52 is "az" and 53 is
    "ba". *)
Theorem generate_suffix_spec index :
  1 <= index ->
  generate_suffix index 1 = str index
  /\ decimal_value (generate_suffix index 1) = Some index
  /\ all_lower (generate_suffix index 2) = true
  /\ bijective26_value (generate_suffix index 2) = index
  /\ (forall s, all_lower s = true -> bijective26_value s = index ->
                s = generate_suffix index 2)
  /\ generate_suffix 1 2 = "a" /\ generate_suffix 2 2 = "b"
  /\ generate_suffix 26 2 = "z" /\ generate_suffix 27 2 = "aa"
  /\ generate_suffix 28 2 = "ab" /\ generate_suffix 52 2 = "az"
  /\ generate_suffix 53 2 = "ba".
Proof.
  intros Hi.
  assert (Hrun : generate_suffix_loop (suffix_fuel index) index ""
                 = Some (generate_suffix index 2)).
  { exact (generate_suffix_fuel_total index 2 _ (Nat.le_refl _)). }
  assert (H0 : 0 <= index) by lia.
  destruct (loop_value _ _ _ _ H0 Hrun) as [Hv Hl].
  repeat split; try reflexivity.
  - now apply decimal_value_str.
  - now apply Hl.
  - rewrite Hv. unfold bijective26_value, len. simpl. lia.
  - intros s Hs Hval. destruct (loop_spells s Hs "") as [fuel Hf].
    rewrite Hval, string_app_nil_r in Hf. symmetry.
    now apply (generate_suffix_letters index 2 fuel).
Qed.

(** C9.  The suffix generator returns for every integer index and every
    style: some number of iterations is enough, and more never change the
    result.  While the index is at least 1 one iteration replaces it by
    [(index - 1) / 26], which is smaller and not negative.  For an index of
    0 or less the loop body is not run at all (no iteration is needed) and
    the alphabetic suffix is the empty string. *)
Theorem generate_suffix_terminates index numbering_style :
  (exists fuel, forall fuel', (fuel <= fuel')%nat ->
     generate_suffix_fuel fuel' index numbering_style
     = Some (generate_suffix index numbering_style))
  /\ (1 <= index -> 0 <= (index - 1) / 26 < index)
  /\ (index <= 0 -> forall result,
        generate_suffix_loop 0 index result = Some result)
  /\ (index <= 0 -> numbering_style <> 1 ->
        generate_suffix index numbering_style = "").
Proof.
  split; [|split; [|split]].
  - exists (suffix_fuel index). apply generate_suffix_fuel_total.
  - apply loop_variable_decreases.
  - intros Hi result. now apply loop_stop.
  - intros Hi Hn.
    apply (generate_suffix_letters index numbering_style O); [assumption|].
    now apply loop_stop.
Qed.

(** ** Strings and paths *)

Lemma substring_all s : substring 0 (String.length s) s = s.
Proof. induction s; simpl; congruence. Qed.

Lemma substring_skip q : forall m p,
  substring (String.length q) m (q ++ p) = substring 0 m p.
Proof. induction q; intros m p; simpl; auto. Qed.

Lemma substring_split s : forall n, (n <= String.length s)%nat ->
  substring 0 n s ++ substring n (String.length s - n) s = s.
Proof.
  induction s as [|c s IH]; intros n Hn.
  - destruct n; reflexivity.
  - destruct n as [|n].
    + simpl. now rewrite substring_all.
    + simpl in *. rewrite IH by lia. reflexivity.
Qed.

Lemma string_length_app s t :
  String.length (s ++ t) = (String.length s + String.length t)%nat.
Proof. induction s; simpl; congruence. Qed.

Lemma endswith_spec s p : endswith s p = true <-> exists q, s = q ++ p.
Proof.
  unfold endswith. rewrite andb_true_iff, Nat.leb_le, String.eqb_eq. split.
  - intros [Hl E]. exists (substring 0 (String.length s - String.length p) s).
    assert (Hn : (String.length s - String.length p <= String.length s)%nat) by lia.
    pose proof (substring_split s _ Hn) as Hs.
    replace (String.length s - (String.length s - String.length p))%nat
      with (String.length p) in Hs by lia.
    rewrite E in Hs. now symmetry.
  - intros [q ->]. rewrite string_length_app. split; [lia|].
    replace (String.length q + String.length p - String.length p)%nat
      with (String.length q) by lia.
    rewrite substring_skip. apply substring_all.
Qed.

(** [rfind] *)

Lemma rfind_from_spec s c : forall i last,
  (rfind_from s c i last = last
   /\ forall k, String.get k s <> Some c)
  \/ exists k, rfind_from s c i last = i + Z.of_nat k
               /\ String.get k s = Some c
               /\ forall m, (k < m)%nat -> String.get m s <> Some c.
Proof.
  induction s as [|a s IH]; intros i last; simpl.
  - left. split; [reflexivity|]. intros k. destruct k; discriminate.
  - destruct (IH (i + 1) (if Ascii.eqb a c then i else last))
      as [[E Hno]|(k & E & Hk & Hlast)].
    + destruct (Ascii.eqb a c) eqn:Eac.
      * right. exists O. apply Ascii.eqb_eq in Eac. subst a.
        rewrite E. split; [lia|]. split; [reflexivity|].
        intros m Hm. destruct m; [lia|]. apply Hno.
      * left. split; [assumption|]. intros k. destruct k; [|apply Hno].
        apply Ascii.eqb_neq in Eac. congruence.
    + right. exists (S k). rewrite E. split; [lia|]. split; [assumption|].
      intros m Hm. destruct m; [lia|]. apply Hlast. lia.
Qed.

Lemma get_length s : forall k c, String.get k s = Some c -> (k < String.length s)%nat.
Proof.
  induction s as [|a s IH]; intros k c Hk; [destruct k; discriminate|].
  destruct k; simpl in *; [lia|]. apply IH in Hk. lia.
Qed.

Lemma substring_head s : forall k c m,
  String.get k s = Some c -> exists r, substring k (S m) s = String c r.
Proof.
  induction s as [|a s IH]; intros k c m Hk; [destruct k; discriminate|].
  destruct k; simpl in *.
  - injection Hk as ->. eexists. reflexivity.
  - now apply IH.
Qed.

(** [splitext] cuts the name in two; the second part is empty or starts
    with the dot. *)
Lemma splitext_spec p :
  fst (OsPath.splitext p) ++ snd (OsPath.splitext p) = p
  /\ (snd (OsPath.splitext p) = ""
      \/ startswith (snd (OsPath.splitext p)) "." = true).
Proof.
  unfold OsPath.splitext.
  set (sepIndex := rfind p "/"). set (dotIndex := rfind p ".").
  destruct ((dotIndex >? sepIndex) && _) eqn:E; simpl.
  2:{ split; [apply string_app_nil_r | now left]. }
  apply andb_prop in E as [Hgt _]. apply Z.gtb_lt in Hgt.
  assert (Hsep : -1 <= sepIndex).
  { unfold sepIndex, rfind.
    destruct (rfind_from_spec p "/" 0 (-1)) as [[-> _]|(k & -> & _)]; lia. }
  unfold dotIndex, rfind in *.
  destruct (rfind_from_spec p "." 0 (-1)) as [[E _]|(k & E & Hk & _)];
    rewrite E in *; [lia|].
  unfold slice_to, slice_from. simpl Z.add. rewrite Nat2Z.id.
  pose proof (get_length _ _ _ Hk) as Hlen.
  split; [apply substring_split; lia|]. right.
  destruct (substring_head p k "." (String.length p - k - 1) Hk) as [r Hr].
  replace (S (String.length p - k - 1)) with (String.length p - k)%nat in Hr by lia.
  rewrite Hr. unfold startswith. destruct r; reflexivity.
Qed.

Lemma nth_error_split {A} (l : list A) p x :
  nth_error l p = Some x ->
  l = (firstn p l ++ x :: skipn (S p) l)%list /\ List.length (firstn p l) = p.
Proof.
  revert p. induction l as [|a l IH]; intros p Hp; [destruct p; discriminate|].
  destruct p as [|p]; simpl in *.
  - injection Hp as ->. now split.
  - destruct (IH p Hp) as [E L]. split; [now rewrite <- E | now rewrite L].
Qed.

Lemma startswith_dot s : startswith s "." = match s with
                                            | String c _ => Ascii.eqb c "."
                                            | "" => false
                                            end.
Proof.
  unfold startswith. destruct s as [|c r]; [reflexivity|].
  change (prefix "." (String c r))
    with (if ascii_dec "." c then prefix "" r else false).
  destruct (ascii_dec "." c) as [<-|Hn].
  - destruct r; reflexivity.
  - symmetry. apply Ascii.eqb_neq. congruence.
Qed.

(** ** Further properties of the suffix generator and of the new names *)

Lemma to_int_not_nil n :
  Z.to_int n <> Decimal.Pos Decimal.Nil /\ Z.to_int n <> Decimal.Neg Decimal.Nil.
Proof.
  destruct n as [|p|p]; simpl; split; try discriminate;
    intros [= E]; now apply (DecimalPos.Unsigned.to_uint_nonnil p).
Qed.

Lemma str_injective i j : str i = str j -> i = j.
Proof.
  unfold str. intros E.
  destruct (to_int_not_nil i) as [Hi1 Hi2]. destruct (to_int_not_nil j) as [Hj1 Hj2].
  apply (f_equal NilZero.int_of_string) in E.
  rewrite !NilZero.isi in E by assumption.
  injection E as E. now apply DecimalZ.to_int_inj.
Qed.

Lemma letters_value index numbering_style :
  0 <= index -> numbering_style <> 1 ->
  bijective26_value (generate_suffix index numbering_style) = index
  /\ all_lower (generate_suffix index numbering_style) = true.
Proof.
  intros Hi Hn.
  pose proof (generate_suffix_fuel_total index numbering_style _ (Nat.le_refl _)) as Hrun.
  unfold generate_suffix_fuel in Hrun.
  destruct (numbering_style =? 1) eqn:E; [lia|].
  destruct (loop_value _ _ _ _ Hi Hrun) as [Hv Hl]. split.
  - rewrite Hv. unfold bijective26_value, len. simpl. lia.
  - now apply Hl.
Qed.

(** X1.  Under either style the suffix tells the index: two indices of at
    least 0 with the same suffix are equal. *)
Theorem generate_suffix_injective numbering_style i j :
  0 <= i -> 0 <= j ->
  generate_suffix i numbering_style = generate_suffix j numbering_style ->
  i = j.
Proof.
  intros Hi Hj E.
  destruct (Z.eq_dec numbering_style 1) as [->|Hn].
  - now apply str_injective.
  - destruct (letters_value i numbering_style Hi Hn) as [Vi _].
    destruct (letters_value j numbering_style Hj Hn) as [Vj _].
    congruence.
Qed.

(** X3.  For the indices 1 to 26 the alphabetic suffix is the single letter
    [chr(ord('a') + index - 1)]. *)
Theorem generate_suffix_single_letter index :
  1 <= index <= 26 ->
  generate_suffix index 2 = String (ascii_of_nat (Z.to_nat (index + 96))) "".
Proof.
  intros Hi.
  remember (Z.to_nat index) as n eqn:En.
  assert (E : index = Z.of_nat n) by lia. subst index. clear En.
  destruct n as [|n]; [lia|].
  do 26 (destruct n as [|n]; [reflexivity|]).
  lia.
Qed.

Lemma dot_free_uint d : dot_free (NilEmpty.string_of_uint d) = true.
Proof. induction d; simpl; auto. Qed.

Lemma dot_free_str n : dot_free (str n) = true.
Proof.
  unfold str. destruct (Z.to_int n) as [d|d]; simpl;
    destruct d; simpl; auto using dot_free_uint.
Qed.

Lemma dot_free_lower s : all_lower s = true -> dot_free s = true.
Proof.
  induction s as [|c s IH]; [reflexivity|]. simpl. intros Hl.
  apply andb_prop in Hl as [Hc Hs]. rewrite IH by assumption.
  rewrite andb_true_r. apply negb_true_iff, Ascii.eqb_neq. intros ->.
  discriminate Hc.
Qed.

Lemma dot_free_suffix index numbering_style :
  dot_free (generate_suffix index numbering_style) = true.
Proof.
  destruct (Z.eq_dec numbering_style 1) as [->|Hn]; [apply dot_free_str|].
  destruct (Z_lt_le_dec index 0) as [Hneg|Hpos].
  - rewrite (generate_suffix_letters index numbering_style O "" Hn); [reflexivity|].
    apply loop_stop. lia.
  - apply dot_free_lower. now apply letters_value.
Qed.

Lemma string_app_inv_head p : forall x y, p ++ x = p ++ y -> x = y.
Proof. induction p; simpl; intros x y E; [assumption|]. injection E. auto. Qed.

(** A dot-free stem followed by an extension (empty, or led by the dot)
    splits in one way only. *)
Lemma stem_extension_unique s1 : forall s2 e1 e2,
  dot_free s1 = true -> dot_free s2 = true ->
  e1 = "" \/ startswith e1 "." = true ->
  e2 = "" \/ startswith e2 "." = true ->
  s1 ++ e1 = s2 ++ e2 -> s1 = s2 /\ e1 = e2.
Proof.
  assert (Hhead : forall c r e, dot_free (String c r) = true ->
                    e = "" \/ startswith e "." = true ->
                    e <> String c r ++ e /\ forall e', e <> String c (r ++ e')).
  { intros c r e Hd He. simpl in Hd. apply andb_prop in Hd as [Hc _].
    apply negb_true_iff in Hc.
    assert (forall e', e <> String c (r ++ e')).
    { intros e' ->. destruct He as [He|He]; [discriminate|].
      rewrite startswith_dot in He. congruence. }
    split; [apply H|assumption]. }
  induction s1 as [|a r1 IH]; intros s2 e1 e2 H1 H2 He1 He2 E.
  - destruct s2 as [|b r2]; [now split|].
    simpl in E. exfalso. now apply (proj2 (Hhead b r2 e1 H2 He1) e2).
  - destruct s2 as [|b r2].
    + simpl in E. exfalso. symmetry in E.
      now apply (proj2 (Hhead a r1 e2 H1 He2) e1).
    + simpl in E. injection E as -> E.
      simpl in H1, H2. apply andb_prop in H1 as [_ H1]. apply andb_prop in H2 as [_ H2].
      destruct (IH r2 e1 e2 H1 H2 He1 He2 E) as [-> ->]. now split.
Qed.

(** X2.  With a starting index of at least 0, the files at two different
    positions are never given the same new name, whatever their names: equal
    new names mean equal positions (and equal extensions). *)
Theorem planned_names_distinct common_name numbering_style start_index p q f g :
  0 <= start_index ->
  planned_name common_name numbering_style start_index p f
  = planned_name common_name numbering_style start_index q g ->
  p = q /\ snd (OsPath.splitext f) = snd (OsPath.splitext g).
Proof.
  intros Hs E. unfold planned_name in E.
  apply string_app_inv_head in E. apply (string_app_inv_head "_") in E.
  apply stem_extension_unique in E;
    try apply dot_free_suffix; try apply splitext_spec.
  destruct E as [E ->]. split; [|reflexivity].
  apply generate_suffix_injective in E; lia.
Qed.

Lemma ascii_lower_app s t : ascii_lower (s ++ t) = ascii_lower s ++ ascii_lower t.
Proof. induction s; simpl; congruence. Qed.

Lemma is_ascii_app s t : is_ascii (s ++ t) = is_ascii s && is_ascii t.
Proof. induction s; simpl; [reflexivity|]. now rewrite IHs, andb_assoc. Qed.

Lemma has_upper_app s t : has_upper (s ++ t) = has_upper s || has_upper t.
Proof. induction s; simpl; [reflexivity|]. now rewrite IHs, orb_assoc. Qed.

(** ** The program *)

Section Properties.

Context {FS : Type} {os : OS FS} {rt : Runtime}.

Lemma bind_ok {A B} (m : M FS A) (k : A -> M FS B) w a w' :
  m w = (Ok a, w') -> bind m k w = k a w'.
Proof. intros E. unfold bind. now rewrite E. Qed.

Lemma harmless_app evs evs' :
  harmless (evs ++ evs') = harmless evs && harmless evs'.
Proof. apply forallb_app. Qed.

Lemma renames_done_app evs evs' :
  renames_done (evs ++ evs') = renames_done evs + renames_done evs'.
Proof.
  induction evs as [|e evs IH]; [reflexivity|].
  rewrite <- app_comm_cons. cbn [renames_done].
  destruct e; try assumption. destruct ok; lia.
Qed.

Lemma harmless_renames_done evs : harmless evs = true -> renames_done evs = 0.
Proof.
  induction evs as [|e evs IH]; simpl; [reflexivity|].
  intros Hh. apply andb_prop in Hh as [He Hh].
  destruct e; try discriminate; auto.
Qed.

(** A computation that leaves the file system alone: whatever it returns,
    the file system is the one it started from and the events it adds are
    no renames. *)
Definition read_only {A} (m : M FS A) : Prop :=
  forall w, fs (snd (m w)) = fs w
            /\ exists evs, trace (snd (m w)) = (trace w ++ evs)%list
                           /\ harmless evs = true.

Lemma read_only_ret {A} (a : A) : read_only (ret a).
Proof.
  intros w. split; [reflexivity|]. exists []. simpl. now rewrite app_nil_r.
Qed.

Lemma read_only_emit {A} (a : result A) (ev : event) (f : world FS -> list string) :
  mutating ev = false ->
  read_only (fun w => (a, World (f w) (trace w ++ [ev]) (fs w))).
Proof.
  intros Hev w. split; [reflexivity|]. exists [ev]. simpl.
  unfold harmless. simpl. now rewrite Hev.
Qed.

Lemma read_only_print text : read_only (print text).
Proof. now apply (read_only_emit (Ok tt) (Print text) stdin). Qed.

Lemma read_only_input text : read_only (input text).
Proof.
  intros w. unfold input. destruct (stdin w); simpl;
    (split; [reflexivity|]; exists [Prompt text]; split; reflexivity).
Qed.

Lemma read_only_getcwd : read_only os_getcwd.
Proof.
  intros w. unfold os_getcwd. destruct (getcwd (fs w)); simpl;
    (split; [reflexivity|]; exists [Getcwd]; split; reflexivity).
Qed.

Lemma read_only_listdir path : read_only (os_listdir path).
Proof.
  intros w. unfold os_listdir. destruct (listdir (fs w) path); simpl;
    (split; [reflexivity|]; exists [Listdir path]; split; reflexivity).
Qed.

Lemma read_only_isfile path : read_only (os_path_isfile path).
Proof.
  intros w. split; [reflexivity|]. exists [PathIsfile path]. split; reflexivity.
Qed.

Lemma read_only_exists path : read_only (os_path_exists path).
Proof.
  intros w. split; [reflexivity|]. exists [PathExists path]. split; reflexivity.
Qed.

Lemma read_only_bind {A B} (m : M FS A) (k : A -> M FS B) :
  read_only m -> (forall a, read_only (k a)) -> read_only (bind m k).
Proof.
  intros Hm Hk w. unfold bind.
  destruct (Hm w) as (Hfs & evs & Htr & Hh).
  destruct (m w) as [[a|e] w1]; simpl in *.
  - destruct (Hk a w1) as (Hfs' & evs' & Htr' & Hh').
    split; [congruence|]. exists (evs ++ evs')%list.
    rewrite Htr', Htr, app_assoc, harmless_app, Hh, Hh'. now split.
  - split; [assumption|]. now exists evs.
Qed.

Lemma read_only_try {A} (m : M FS A) (h : exn -> option (M FS A)) :
  read_only m -> (forall e k, h e = Some k -> read_only k) ->
  read_only (try_except m h).
Proof.
  intros Hm Hh w. unfold try_except.
  destruct (Hm w) as (Hfs & evs & Htr & Hev).
  destruct (m w) as [[a|e] w1]; simpl in *.
  - split; [assumption|]. now exists evs.
  - destruct (h e) as [k|] eqn:E.
    + destruct (Hh e k E w1) as (Hfs' & evs' & Htr' & Hev').
      split; [congruence|]. exists (evs ++ evs')%list.
      rewrite Htr', Htr, app_assoc, harmless_app, Hev, Hev'. now split.
    + split; [assumption|]. now exists evs.
Qed.

Lemma read_only_if {A} (b : bool) (m1 m2 : M FS A) :
  read_only m1 -> read_only m2 -> read_only (if b then m1 else m2).
Proof. now destruct b. Qed.

Lemma ask_choice_loop_harmless lines : forall tr,
  exists evs, snd (ask_choice_loop lines tr) = (tr ++ evs)%list
              /\ harmless evs = true.
Proof.
  induction lines as [|line rest IH]; intros tr; simpl.
  - now exists [Prompt "Enter your choice (1 or 2): "].
  - destruct (int line) as [choice|].
    + destruct ((choice =? 1) || (choice =? 2)).
      * now exists [Prompt "Enter your choice (1 or 2): "].
      * destruct (IH ((tr ++ [Prompt "Enter your choice (1 or 2): "])
                        ++ [Print "Please enter 1 or 2"])%list) as (evs & E & Hh).
        eexists. rewrite E, <- !app_assoc. split; [reflexivity|].
        rewrite !harmless_app, Hh. reflexivity.
    + destruct (IH ((tr ++ [Prompt "Enter your choice (1 or 2): "])
                      ++ [Print "Please enter a valid number (1 or 2)"])%list)
        as (evs & E & Hh).
      eexists. rewrite E, <- !app_assoc. split; [reflexivity|].
      rewrite !harmless_app, Hh. reflexivity.
Qed.

Lemma read_only_ask_choice : read_only ask_choice.
Proof.
  intros w. unfold ask_choice.
  destruct (ask_choice_loop_harmless (stdin w) (trace w)) as (evs & E & Hh).
  destruct (ask_choice_loop (stdin w) (trace w)) as [[r lines] tr].
  simpl in *. split; [reflexivity|]. now exists evs.
Qed.

Lemma ask_start_index_loop_harmless lines : forall tr,
  exists evs, snd (ask_start_index_loop lines tr) = (tr ++ evs)%list
              /\ harmless evs = true.
Proof.
  induction lines as [|line rest IH]; intros tr; simpl.
  - now exists [Prompt "Enter starting number/letter index (default is 1): "].
  - destruct (int (if truthy line then line else "1")) as [start_index|].
    + destruct (start_index >=? 0).
      * now exists [Prompt "Enter starting number/letter index (default is 1): "].
      * destruct (IH ((tr ++ [Prompt "Enter starting number/letter index (default is 1): "])
                        ++ [Print "Please enter a non-negative number"])%list)
          as (evs & E & Hh).
        eexists. rewrite E, <- !app_assoc. split; [reflexivity|].
        rewrite !harmless_app, Hh. reflexivity.
    + destruct (IH ((tr ++ [Prompt "Enter starting number/letter index (default is 1): "])
                      ++ [Print "Please enter a valid number"])%list)
        as (evs & E & Hh).
      eexists. rewrite E, <- !app_assoc. split; [reflexivity|].
      rewrite !harmless_app, Hh. reflexivity.
Qed.

Lemma read_only_ask_start_index : read_only ask_start_index.
Proof.
  intros w. unfold ask_start_index.
  destruct (ask_start_index_loop_harmless (stdin w) (trace w)) as (evs & E & Hh).
  destruct (ask_start_index_loop (stdin w) (trace w)) as [[r lines] tr].
  simpl in *. split; [reflexivity|]. now exists evs.
Qed.

Create HintDb read_only.
Hint Resolve read_only_ret read_only_print read_only_input read_only_getcwd
  read_only_listdir read_only_isfile read_only_exists read_only_ask_choice
  read_only_ask_start_index : read_only.

Ltac read_only_tac :=
  repeat first
    [ progress auto with read_only
    | apply read_only_bind; [| intros ]
    | apply read_only_if
    | apply read_only_try; [| intros ] ].

Lemma read_only_get_user_preferences : read_only get_user_preferences.
Proof. unfold get_user_preferences. read_only_tac. Qed.

Lemma read_only_keep_files directory names : read_only (keep_files directory names).
Proof. induction names as [|f rest IH]; simpl; read_only_tac. Qed.

Lemma read_only_get_files_to_rename directory extension_filter :
  read_only (get_files_to_rename directory extension_filter).
Proof.
  unfold get_files_to_rename. pose proof read_only_keep_files. read_only_tac.
  match goal with H : _ = Some _ |- _ => rename H into Hk end.
  destruct e as [|[[] text]]; try discriminate; injection Hk as <-; read_only_tac.
Qed.

Lemma read_only_preview_loop common_name numbering_style files : forall i,
  read_only (preview_loop common_name numbering_style i files).
Proof. induction files as [|f rest IH]; intros i; simpl; read_only_tac. Qed.

Lemma read_only_preview_changes directory files common_name numbering_style start_index :
  read_only (preview_changes directory files common_name numbering_style start_index).
Proof.
  unfold preview_changes. pose proof read_only_preview_loop. read_only_tac.
Qed.

(** What one pass through the loop body does, by cases on the answers of
    the operating system. *)
Lemma rename_to_run directory filename new_filename renamed_count (w : world FS) :
  let new_filepath := OsPath.join directory new_filename in
  let old_filepath := OsPath.join directory filename in
  rename_to directory filename new_filename renamed_count w =
  if exists_ (fs w) new_filepath then
    (Ok renamed_count,
     World (stdin w)
       (trace w ++ [PathExists new_filepath;
                    Print ("Warning: " ++ new_filename
                           ++ " already exists! Skipping " ++ filename)])
       (fs w))
  else
    match rename (fs w) old_filepath new_filepath with
    | inl fs' =>
        (Ok (renamed_count + 1),
         World (stdin w)
           (trace w ++ [PathExists new_filepath;
                        Rename old_filepath new_filepath true;
                        Print ("Renamed: " ++ filename ++ " -> " ++ new_filename)])
           fs')
    | inr e =>
        (Ok renamed_count,
         World (stdin w)
           (trace w ++ [PathExists new_filepath;
                        Rename old_filepath new_filepath false;
                        Print ("Error renaming " ++ filename ++ ": " ++ err_text e)])
           (fs w))
    end.
Proof.
  intros new_filepath old_filepath.
  unfold rename_to, bind, os_path_exists, try_except, os_rename, print, ret, emit.
  fold new_filepath old_filepath. simpl.
  destruct (exists_ (fs w) new_filepath); simpl.
  - now rewrite <- app_assoc.
  - destruct (rename (fs w) old_filepath new_filepath); simpl;
      now rewrite <- !app_assoc.
Qed.

(** The loop over a concatenation: first the front, then the rest, with the
    index moved on by the length of the front. *)
Lemma rename_loop_app directory common_name numbering_style pre : forall post i c w,
  rename_loop directory common_name numbering_style i (pre ++ post) c w =
  (c1 <- rename_loop directory common_name numbering_style i pre c ;;
   rename_loop directory common_name numbering_style (i + llen pre) post c1) w.
Proof.
  induction pre as [|f pre IH]; intros post i c w.
  - simpl. unfold bind, ret, llen. simpl. now rewrite Z.add_0_r.
  - rewrite <- app_comm_cons. cbn [rename_loop]. unfold bind.
    destruct (rename_to _ _ _ _ w) as [[c1|e] w1]; [|reflexivity].
    rewrite IH. unfold bind, llen. simpl List.length.
    rewrite Nat2Z.inj_succ.
    replace (i + Z.succ (Z.of_nat (List.length pre)))
      with (i + 1 + Z.of_nat (List.length pre)) by lia.
    reflexivity.
Qed.

(** One pass through the loop body always returns; the counter goes up by
    the number of renames that succeeded in it, none or one. *)
Lemma rename_to_total directory filename new_filename c (w : world FS) :
  exists evs fs',
    rename_to directory filename new_filename c w
    = (Ok (c + renames_done evs), World (stdin w) (trace w ++ evs) fs')
    /\ 0 <= renames_done evs <= 1.
Proof.
  rewrite rename_to_run.
  destruct (exists_ _ _); [|destruct (rename _ _ _)];
    match goal with
    | |- exists evs fs', (_, World _ (_ ++ ?l)%list ?f) = _ /\ _ => exists l, f
    end;
    cbn [renames_done]; rewrite ?Z.add_0_r; (split; [reflexivity | lia]).
Qed.

(** The loop always runs to its end; it reads no input, and its counter goes
    up by the number of renames that succeeded. *)
Lemma rename_loop_total directory common_name numbering_style files : forall i c w,
  exists evs fs',
    rename_loop directory common_name numbering_style i files c w
    = (Ok (c + renames_done evs), World (stdin w) (trace w ++ evs) fs')
    /\ 0 <= renames_done evs <= llen files.
Proof.
  induction files as [|f rest IH]; intros i c w.
  - exists [], (fs w). cbn [rename_loop renames_done]. unfold ret, llen.
    rewrite app_nil_r, Z.add_0_r.
    destruct w; simpl. split; [reflexivity | lia].
  - cbn [rename_loop]. unfold bind.
    destruct (rename_to_total directory f
                (common_name ++ "_" ++ generate_suffix i numbering_style
                 ++ snd (OsPath.splitext f)) c w) as (evs1 & fs1 & E1 & Hb1).
    rewrite E1.
    destruct (IH (i + 1) (c + renames_done evs1)
                (World (stdin w) (trace w ++ evs1) fs1)) as (evs2 & fs2 & E2 & Hb2).
    rewrite E2. exists (evs1 ++ evs2)%list, fs2.
    rewrite renames_done_app. cbn [stdin trace].
    rewrite <- app_assoc, Z.add_assoc.
    split; [reflexivity|].
    unfold llen in *. simpl List.length. rewrite Nat2Z.inj_succ. lia.
Qed.

Lemma rename_files_total directory files common_name numbering_style start_index w :
  exists evs fs',
    rename_files directory files common_name numbering_style start_index w
    = (Ok (renames_done evs), World (stdin w) (trace w ++ evs) fs')
    /\ 0 <= renames_done evs <= llen files.
Proof.
  unfold rename_files, bind, print.
  destruct (rename_loop_total directory common_name numbering_style files
              start_index 0 (emit (Print (nl ++ "Renaming " ++ str (llen files) ++ " files...")) w))
    as (evs & fs' & E & Hb).
  rewrite E. exists (Print (nl ++ "Renaming " ++ str (llen files) ++ " files...") :: evs), fs'.
  unfold emit. cbn [stdin trace renames_done]. rewrite <- app_assoc, Z.add_0_l.
  split; [reflexivity | assumption].
Qed.

Lemma preview_loop_app common_name numbering_style pre : forall post i (w : world FS),
  preview_loop common_name numbering_style i (pre ++ post) w =
  (preview_loop common_name numbering_style i pre ;;
   preview_loop common_name numbering_style (i + llen pre) post) w.
Proof.
  induction pre as [|f pre IH]; intros post i w.
  - simpl. unfold bind, ret, llen. simpl. now rewrite Z.add_0_r.
  - rewrite <- app_comm_cons. cbn [preview_loop]. unfold bind, print.
    rewrite IH. unfold bind, llen. simpl List.length.
    rewrite Nat2Z.inj_succ.
    replace (i + Z.succ (Z.of_nat (List.length pre)))
      with (i + 1 + Z.of_nat (List.length pre)) by lia.
    reflexivity.
Qed.

(** The renamer's loop seen from the file at position [p]: the files
    before it, its own pass, the files after it. *)
Lemma rename_loop_nth directory common_name numbering_style start_index
    files p filename c (w : world FS) :
  nth_error files p = Some filename ->
  rename_loop directory common_name numbering_style start_index files c w =
  (c1 <- rename_loop directory common_name numbering_style start_index
           (firstn p files) c ;;
   c2 <- rename_to directory filename
           (planned_name common_name numbering_style start_index p filename) c1 ;;
   rename_loop directory common_name numbering_style
     (start_index + Z.of_nat p + 1) (skipn (S p) files) c2) w.
Proof.
  intros Hp. destruct (nth_error_split _ _ _ Hp) as [E L].
  rewrite E at 1. rewrite rename_loop_app. unfold llen. rewrite L.
  reflexivity.
Qed.

(** C2.  For the file at 0-based position [p] of the list, the pass of
    [rename_files] for that file is the collision check and rename towards
    [common_name ++ "_" ++ generate_suffix (start_index + p) numbering_style
    ++ extension], after the passes for the files before it and before
    those for the files after it; the preview loop, run by
    [preview_changes] on the first five files, prints for each of those
    positions the file's name, an arrow and that same new name.  The
    extension is the second half of [os.path.splitext]: the two halves make
    up the file's name, and the extension is empty or begins with the
    dot. *)
Theorem new_filename_formula directory common_name numbering_style start_index
    files p filename :
  nth_error files p = Some filename ->
  let new_filename :=
    planned_name common_name numbering_style start_index p filename in
  (forall w : world FS,
     rename_files directory files common_name numbering_style start_index w =
     (print (nl ++ "Renaming " ++ str (llen files) ++ " files...") ;;
      c1 <- rename_loop directory common_name numbering_style start_index
              (firstn p files) 0 ;;
      c2 <- rename_to directory filename new_filename c1 ;;
      rename_loop directory common_name numbering_style
        (start_index + Z.of_nat p + 1) (skipn (S p) files) c2) w)
  /\ ((p < 5)%nat -> forall w : world FS,
        preview_loop common_name numbering_style start_index (firstn 5 files) w =
        (preview_loop common_name numbering_style start_index (firstn p files) ;;
         print (filename ++ " -> " ++ new_filename) ;;
         preview_loop common_name numbering_style (start_index + Z.of_nat p + 1)
           (skipn (S p) (firstn 5 files))) w)
  /\ fst (OsPath.splitext filename) ++ snd (OsPath.splitext filename) = filename
  /\ (snd (OsPath.splitext filename) = ""
      \/ startswith (snd (OsPath.splitext filename)) "." = true).
Proof.
  intros Hp new_filename. split; [|split; [|apply splitext_spec]].
  - intros w. unfold rename_files, bind at 1 2, print.
    now rewrite (rename_loop_nth _ _ _ _ _ _ _ _ _ Hp).
  - intros H5 w.
    assert (Hp5 : nth_error (firstn 5 files) p = Some filename).
    { rewrite nth_error_firstn. destruct (Nat.ltb_spec p 5); [assumption | lia]. }
    destruct (nth_error_split _ _ _ Hp5) as [E L].
    rewrite E at 1. rewrite preview_loop_app. unfold llen. rewrite L.
    rewrite firstn_firstn, Nat.min_l by lia. reflexivity.
Qed.

(** The loop from a file on: its pass, then the files after it. *)
Lemma rename_loop_at directory common_name numbering_style start_index
    pre filename post c (w : world FS) c1 w1 c2 w2 :
  rename_loop directory common_name numbering_style start_index pre c w
  = (Ok c1, w1) ->
  rename_to directory filename
    (planned_name common_name numbering_style start_index (List.length pre) filename)
    c1 w1 = (Ok c2, w2) ->
  rename_loop directory common_name numbering_style start_index
    (pre ++ filename :: post) c w
  = rename_loop directory common_name numbering_style
      (start_index + llen pre + 1) post c2 w2.
Proof.
  intros Hpre Hstep.
  rewrite rename_loop_app. rewrite (bind_ok _ _ _ _ _ Hpre).
  cbn [rename_loop]. unfold llen.
  fold (planned_name common_name numbering_style start_index (List.length pre) filename).
  now rewrite (bind_ok _ _ _ _ _ Hstep).
Qed.

(** C3.  Take any file of the batch, with the files [pre] before it and
    [post] after it.  The passes for [pre] end in some counter [c1] and
    world [w1].  If the new name of the file exists in [w1], its pass adds
    the existence check and the warning to the trace and nothing else: the
    file system and the counter are the same after it, no rename is
    attempted.  The loop goes on with [post], and the count returned is
    [c1] plus the renames that succeed in [post]. *)
Theorem collision_is_skipped directory common_name numbering_style start_index
    pre filename post c (w : world FS) :
  exists c1 w1,
    rename_loop directory common_name numbering_style start_index pre c w
    = (Ok c1, w1)
    /\ let new_filename :=
         planned_name common_name numbering_style start_index
           (List.length pre) filename in
       exists_ (fs w1) (OsPath.join directory new_filename) = true ->
       let w2 :=
         World (stdin w1)
           (trace w1 ++ [PathExists (OsPath.join directory new_filename);
                         Print ("Warning: " ++ new_filename
                                ++ " already exists! Skipping " ++ filename)])
           (fs w1) in
       rename_to directory filename new_filename c1 w1 = (Ok c1, w2)
       /\ rename_loop directory common_name numbering_style start_index
            (pre ++ filename :: post) c w
          = rename_loop directory common_name numbering_style
              (start_index + llen pre + 1) post c1 w2
       /\ exists evs fs',
            rename_loop directory common_name numbering_style start_index
              (pre ++ filename :: post) c w
            = (Ok (c1 + renames_done evs),
               World (stdin w2) (trace w2 ++ evs) fs')
            /\ 0 <= renames_done evs <= llen post.
Proof.
  destruct (rename_loop_total directory common_name numbering_style pre
              start_index c w) as (evs0 & fs0 & Hpre & _).
  eexists; eexists. split; [exact Hpre|].
  intros new_filename Hex w2.
  assert (Hstep : rename_to directory filename new_filename
                    (c + renames_done evs0)
                    (World (stdin w) (trace w ++ evs0) fs0)
                  = (Ok (c + renames_done evs0), w2)).
  { rewrite rename_to_run. cbn [fs] in *. fold new_filename. rewrite Hex. reflexivity. }
  pose proof (rename_loop_at _ _ _ _ _ _ post _ _ _ _ _ _ Hpre Hstep) as Hall.
  split; [assumption|]. split; [assumption|].
  rewrite Hall. apply rename_loop_total.
Qed.

(** C6.  Take any file of the batch, with the files [pre] before it and
    [post] after it.  If its new name is free and [os.rename] fails with an
    OSError, its pass prints "Error renaming", the file's name and the
    error's text, and leaves the counter and the file system as they were;
    the loop goes on with [post].  Whatever the files, [rename_files]
    returns, and what it returns is the number of renames that
    succeeded, never more than the number of files. *)
Theorem rename_failure_is_isolated directory common_name numbering_style
    start_index pre filename post c (w : world FS) :
  exists c1 w1,
    rename_loop directory common_name numbering_style start_index pre c w
    = (Ok c1, w1)
    /\ (forall e,
          let new_filename :=
            planned_name common_name numbering_style start_index
              (List.length pre) filename in
          exists_ (fs w1) (OsPath.join directory new_filename) = false ->
          rename (fs w1) (OsPath.join directory filename)
            (OsPath.join directory new_filename) = inr e ->
          let w2 :=
            World (stdin w1)
              (trace w1 ++ [PathExists (OsPath.join directory new_filename);
                            Rename (OsPath.join directory filename)
                              (OsPath.join directory new_filename) false;
                            Print ("Error renaming " ++ filename ++ ": "
                                   ++ err_text e)])
              (fs w1) in
          rename_to directory filename new_filename c1 w1 = (Ok c1, w2)
          /\ rename_loop directory common_name numbering_style start_index
               (pre ++ filename :: post) c w
             = rename_loop directory common_name numbering_style
                 (start_index + llen pre + 1) post c1 w2
          /\ exists evs fs',
               rename_loop directory common_name numbering_style start_index
                 (pre ++ filename :: post) c w
               = (Ok (c1 + renames_done evs),
                  World (stdin w2) (trace w2 ++ evs) fs')
               /\ 0 <= renames_done evs <= llen post)
    /\ forall files w0, exists evs fs',
         rename_files directory files common_name numbering_style start_index w0
         = (Ok (renames_done evs), World (stdin w0) (trace w0 ++ evs) fs')
         /\ 0 <= renames_done evs <= llen files.
Proof.
  destruct (rename_loop_total directory common_name numbering_style pre
              start_index c w) as (evs0 & fs0 & Hpre & _).
  eexists; eexists. split; [exact Hpre|].
  split; [|intros; apply rename_files_total].
  intros e new_filename Hex Hren w2.
  assert (Hstep : rename_to directory filename new_filename
                    (c + renames_done evs0)
                    (World (stdin w) (trace w ++ evs0) fs0)
                  = (Ok (c + renames_done evs0), w2)).
  { rewrite rename_to_run. cbn [fs] in *. fold new_filename.
    rewrite Hex, Hren. reflexivity. }
  pose proof (rename_loop_at _ _ _ _ _ _ post _ _ _ _ _ _ Hpre Hstep) as Hall.
  split; [assumption|]. split; [assumption|].
  rewrite Hall. apply rename_loop_total.
Qed.

Lemma keep_files_run directory names : forall w : world FS,
  keep_files directory names w =
  (Ok (filter (fun f => isfile (fs w) (OsPath.join directory f)) names),
   World (stdin w)
     (trace w ++ map (fun f => PathIsfile (OsPath.join directory f)) names)
     (fs w)).
Proof.
  induction names as [|f rest IH]; intros w.
  - simpl. unfold ret. rewrite app_nil_r. now destruct w.
  - cbn [keep_files]. unfold bind, os_path_isfile. rewrite IH.
    unfold ret, emit. cbn [stdin trace fs map filter].
    rewrite <- app_assoc. simpl app.
    destruct (isfile (fs w) (OsPath.join directory f)); reflexivity.
Qed.

(** The files the lister returns when the directory can be listed. *)
Lemma get_files_to_rename_value directory extension_filter (w : world FS) names :
  listdir (fs w) directory = inl names ->
  fst (get_files_to_rename directory extension_filter w) =
  Ok (Some
        (let all_files :=
           filter (fun f => isfile (fs w) (OsPath.join directory f)) names in
         if truthy extension_filter then
           filter (fun f => endswith (lower f)
                              (if negb (startswith extension_filter ".")
                               then "." ++ extension_filter
                               else extension_filter)) all_files
         else all_files)).
Proof.
  intros Hl. unfold get_files_to_rename, try_except, bind, os_listdir.
  rewrite Hl, keep_files_run.
  destruct (truthy extension_filter); reflexivity.
Qed.

(** The lister's answer to a directory that cannot be listed. *)
Lemma get_files_to_rename_failure directory extension_filter (w : world FS) err :
  listdir (fs w) directory = inr err ->
  err_kind err = FileNotFoundError \/ err_kind err = PermissionError ->
  exists text,
    get_files_to_rename directory extension_filter w =
    (Ok None,
     World (stdin w) (trace w ++ [Listdir directory; Print text]) (fs w)).
Proof.
  intros Hl Hk. unfold get_files_to_rename, try_except, bind, os_listdir.
  rewrite Hl. destruct err as [kind text].
  simpl in Hk. destruct Hk as [-> | ->]; eexists; unfold print, ret, emit;
    cbn [stdin trace fs]; rewrite <- app_assoc; reflexivity.
Qed.

(** C5.  When the directory can be listed and the extension filter the
    preference collector hands over (the text typed, stripped and
    lowercased) is not empty, the file lister returns, in the order of the
    listing, exactly the names that are regular files and whose lowercase
    form ends with that lowercased filter, given its leading dot when it
    has none. *)
Theorem lister_filters_by_suffix directory raw names (w : world FS) :
  listdir (fs w) directory = inl names ->
  truthy (lower (strip raw)) = true ->
  let wanted := dot_normalized (lower (strip raw)) in
  let regular := filter (fun f => isfile (fs w) (OsPath.join directory f)) names in
  fst (get_files_to_rename directory (lower (strip raw)) w)
  = Ok (Some (filter (fun f => endswith (lower f) wanted) regular))
  /\ forall f, In f (filter (fun f => endswith (lower f) wanted) regular)
               <-> In f names
                   /\ isfile (fs w) (OsPath.join directory f) = true
                   /\ exists q, lower f = q ++ wanted.
Proof.
  intros Hl Hne wanted regular. split.
  - rewrite (get_files_to_rename_value _ _ _ _ Hl), Hne.
    cbv zeta. unfold wanted, dot_normalized.
    destruct (startswith (lower (strip raw)) "."); reflexivity.
  - intros f. unfold regular. rewrite !filter_In, endswith_spec. tauto.
Qed.

Lemma preview_loop_run common_name numbering_style files : forall i (w : world FS),
  exists evs,
    preview_loop common_name numbering_style i files w
    = (Ok tt, World (stdin w) (trace w ++ evs) (fs w))
    /\ harmless evs = true.
Proof.
  induction files as [|f rest IH]; intros i w.
  - exists []. simpl. unfold ret. rewrite app_nil_r. now destruct w.
  - cbn [preview_loop]. unfold bind, print.
    match goal with |- context [preview_loop _ _ _ _ ?w1] =>
      destruct (IH (i + 1) w1) as (evs & E & Hh) end.
    rewrite E. eexists (_ :: evs). unfold emit. cbn [stdin trace fs].
    rewrite <- app_assoc. split; [reflexivity | exact Hh].
Qed.

(** The gate: what [preview_changes] returns on the next line of input. *)
Lemma preview_changes_run directory files common_name numbering_style start_index
    (w : world FS) line rest :
  stdin w = line :: rest ->
  exists evs,
    preview_changes directory files common_name numbering_style start_index w
    = (Ok (String.eqb (lower (strip line)) "y"),
       World rest (trace w ++ evs) (fs w))
    /\ harmless evs = true.
Proof.
  intros Hin. unfold preview_changes, bind, print.
  match goal with |- context [preview_loop _ _ _ _ ?w1] =>
    destruct (preview_loop_run common_name numbering_style (firstn 5 files)
                start_index w1) as (evs & E & Hh) end.
  rewrite E. unfold emit. cbn [stdin trace fs].
  destruct (llen files >? 5); unfold print, ret, input, emit;
    cbn [stdin trace fs]; rewrite Hin; eexists;
    rewrite <- !app_assoc; (split; [reflexivity|]);
    cbn [app]; unfold harmless; cbn [forallb mutating negb andb];
    rewrite forallb_app; fold (harmless evs); rewrite Hh; reflexivity.
Qed.

(** C7.  When the line typed for the common name is empty once stripped,
    [get_user_preferences] returns [None] after the error message, and
    [main] returns right there: no further line is read, the file system
    is untouched, and the trace gains no directory listing (only the
    banner, the two prompts, at most a [getcwd], and the error).  The one
    case where the common name is not even asked for is a blank directory
    line with [os.getcwd] failing: its OSError then escapes from [main],
    again with no listing and the file system untouched. *)
Theorem empty_common_name_aborts (w : world FS) d n rest :
  stdin w = d :: n :: rest ->
  strip n = "" ->
  let asked :=
    ([Print "=== File Renaming Automation ===";
      Prompt "Enter the directory path (or press Enter for current directory): "]
     ++ (if truthy (strip d) then [] else [Getcwd]))%list in
  let w' :=
    World rest
      (trace w ++ asked
       ++ [Prompt "Enter the common name for all files: ";
           Print "Error: Common name cannot be empty!"])
      (fs w) in
  let crash := World (n :: rest) (trace w ++ asked) (fs w) in
  match (if truthy (strip d) then inl (strip d) else getcwd (fs w)) with
  | inl _ =>
      get_user_preferences w = (Ok None, w') /\ main w = (Ok tt, w')
  | inr e =>
      get_user_preferences w = (Raise (OSError e), crash)
      /\ main w = (Raise (OSError e), crash)
  end
  /\ forall path, In (Listdir path) (trace w') -> In (Listdir path) (trace w).
Proof.
  intros Hin Hn asked w' crash. split.
  - assert (Hmain : forall r wr, get_user_preferences w = (r, wr) ->
              match r with
              | Ok None => main w = (Ok tt, wr)
              | Ok (Some _) => True
              | Raise e => main w = (Raise e, wr)
              end).
    { intros r wr Hp. unfold main, bind. rewrite Hp.
      destruct r as [[p|]|e]; trivial. }
    subst asked w' crash.
    destruct (truthy (strip d)) eqn:Hd; [|destruct (getcwd (fs w)) as [path|e] eqn:Hc].
    + assert (Hp : get_user_preferences w
                   = (Ok None,
                      World rest
                        (trace w
                         ++ ([Print "=== File Renaming Automation ===";
                              Prompt "Enter the directory path (or press Enter for current directory): "]
                             ++ [])
                         ++ [Prompt "Enter the common name for all files: ";
                             Print "Error: Common name cannot be empty!"])
                        (fs w))).
      { unfold get_user_preferences, bind, print, input, emit.
        cbn [stdin trace fs]. rewrite Hin, Hd. cbn [negb]. unfold ret.
        cbn [stdin trace fs]. rewrite Hn.
        cbn [truthy String.eqb negb stdin trace fs].
        rewrite <- !app_assoc. reflexivity. }
      split; [exact Hp | exact (Hmain _ _ Hp)].
    + assert (Hp : get_user_preferences w
                   = (Ok None,
                      World rest
                        (trace w
                         ++ ([Print "=== File Renaming Automation ===";
                              Prompt "Enter the directory path (or press Enter for current directory): "]
                             ++ [Getcwd])
                         ++ [Prompt "Enter the common name for all files: ";
                             Print "Error: Common name cannot be empty!"])
                        (fs w))).
      { unfold get_user_preferences, bind, print, input, emit.
        cbn [stdin trace fs]. rewrite Hin, Hd. cbn [negb].
        unfold os_getcwd, emit. cbn [stdin trace fs]. rewrite Hc.
        cbn [stdin trace fs]. rewrite Hn.
        cbn [truthy String.eqb negb stdin trace fs]. unfold ret.
        rewrite <- !app_assoc. reflexivity. }
      split; [exact Hp | exact (Hmain _ _ Hp)].
    + assert (Hp : get_user_preferences w
                   = (Raise (OSError e),
                      World (n :: rest)
                        (trace w
                         ++ ([Print "=== File Renaming Automation ===";
                              Prompt "Enter the directory path (or press Enter for current directory): "]
                             ++ [Getcwd]))
                        (fs w))).
      { unfold get_user_preferences, bind, print, input, emit.
        cbn [stdin trace fs]. rewrite Hin, Hd. cbn [negb].
        unfold os_getcwd, emit. cbn [stdin trace fs]. rewrite Hc.
        rewrite <- !app_assoc. reflexivity. }
      split; [exact Hp | exact (Hmain _ _ Hp)].
  - intros path. unfold w', asked. cbn [trace]. rewrite !in_app_iff.
    intros [Hi|[[Hi|Hi]|Hi]]; [assumption| | |];
      try destruct (truthy (strip d)); simpl in Hi;
      repeat (destruct Hi as [Hi|Hi]; [discriminate|]); contradiction.
Qed.

(** C10.  After the file lister, [main] does the same on [None] and on the
    empty list: it prints "No files found to rename!" and returns, reading
    no line and leaving the file system alone.  The lister answers [None]
    when the listing fails with FileNotFoundError or PermissionError, and
    in both outcomes the whole run up to there has renamed nothing. *)
Theorem listing_failure_is_like_empty (p : preferences) (w : world FS) :
  let halted := (Ok tt, emit (Print "No files found to rename!") w) in
  (main_after_listing p None w = halted
   /\ main_after_listing p (Some []) w = halted)
  /\ (forall err,
        listdir (fs w) (directory p) = inr err ->
        err_kind err = FileNotFoundError \/ err_kind err = PermissionError ->
        exists text,
          get_files_to_rename (directory p) (extension_filter p) w =
          (Ok None,
           World (stdin w) (trace w ++ [Listdir (directory p); Print text]) (fs w)))
  /\ (forall w0 w1 files,
        get_user_preferences w0 = (Ok (Some p), w) ->
        get_files_to_rename (directory p) (extension_filter p) w = (Ok files, w1) ->
        files = None \/ files = Some [] ->
        main w0 = (Ok tt, emit (Print "No files found to rename!") w1)
        /\ fs w1 = fs w0
        /\ exists evs, trace w1 = (trace w0 ++ evs)%list /\ harmless evs = true).
Proof.
  intros halted. split; [split; reflexivity|]. split.
  - intros err. apply get_files_to_rename_failure.
  - intros w0 w1 files Hp Hf Hfiles. split; [|split].
    + unfold main. rewrite (bind_ok _ _ _ _ _ Hp). cbv iota beta.
      rewrite (bind_ok _ _ _ _ _ Hf).
      destruct Hfiles as [-> | ->]; reflexivity.
    + destruct (read_only_get_user_preferences w0) as [E0 _].
      destruct (read_only_get_files_to_rename (directory p) (extension_filter p) w)
        as [E1 _].
      rewrite Hp in E0. rewrite Hf in E1. simpl in *. congruence.
    + destruct (read_only_get_user_preferences w0) as (_ & evs0 & T0 & H0).
      destruct (read_only_get_files_to_rename (directory p) (extension_filter p) w)
        as (_ & evs1 & T1 & H1).
      rewrite Hp in T0. rewrite Hf in T1. simpl in *.
      exists (evs0 ++ evs1)%list. rewrite T1, T0, app_assoc, harmless_app, H0, H1.
      now split.
Qed.

(** C4, amended.  When the line typed at the confirmation prompt, once
    stripped and lowercased, is not "y" (blank and "n" included), the gate
    returns [False]; [main] then prints "Renaming cancelled by user." and
    returns: the file system is the one it started with, the trace holds no
    rename, and the number of renames done is 0. *)
Theorem decline_halts_before_renamer (w : world FS) line rest :
  stdin w = line :: rest ->
  String.eqb (lower (strip line)) "y" = false ->
  (forall directory files common_name numbering_style start_index,
     exists evs,
       preview_changes directory files common_name numbering_style start_index w
       = (Ok false, World rest (trace w ++ evs) (fs w))
       /\ harmless evs = true)
  /\ (forall w0 p wp f files,
        get_user_preferences w0 = (Ok (Some p), wp) ->
        get_files_to_rename (directory p) (extension_filter p) wp
        = (Ok (Some (f :: files)), w) ->
        exists evs,
          main w0 = (Ok tt,
                     World rest
                       (trace w0 ++ evs ++ [Print "Renaming cancelled by user."])
                       (fs w0))
          /\ harmless evs = true
          /\ renames_done (evs ++ [Print "Renaming cancelled by user."]) = 0).
Proof.
  intros Hin Hno.
  assert (Hgate : forall directory files common_name numbering_style start_index,
     exists evs,
       preview_changes directory files common_name numbering_style start_index w
       = (Ok false, World rest (trace w ++ evs) (fs w))
       /\ harmless evs = true).
  { intros dir files name style start.
    destruct (preview_changes_run dir files name style start w line rest Hin)
      as (evs & E & Hh).
    rewrite Hno in E. now exists evs. }
  split; [exact Hgate|].
  intros w0 p wp f files Hp Hf.
  destruct (Hgate (directory p) (f :: files) (common_name p) (numbering_style p)
              (start_index p)) as (evs2 & E2 & H2).
  destruct (read_only_get_user_preferences w0) as (F0 & evs0 & T0 & H0).
  destruct (read_only_get_files_to_rename (directory p) (extension_filter p) wp)
    as (F1 & evs1 & T1 & H1).
  rewrite Hp in F0, T0. rewrite Hf in F1, T1. simpl in *.
  exists (evs0 ++ evs1 ++ evs2)%list. split; [|split].
  - unfold main. rewrite (bind_ok _ _ _ _ _ Hp). cbv iota beta.
    rewrite (bind_ok _ _ _ _ _ Hf).
    unfold main_after_listing. cbn [files_truthy negb].
    unfold main_confirm_and_rename. rewrite (bind_ok _ _ _ _ _ E2).
    cbn [negb]. unfold print, emit. cbn [stdin trace fs].
    rewrite T1, T0, F1, F0, <- !app_assoc. reflexivity.
  - now rewrite !harmless_app, H0, H1, H2.
  - apply harmless_renames_done.
    now rewrite !harmless_app, H0, H1, H2.
Qed.

(** ** Further properties of the preference collector *)

Lemma ask_choice_loop_run bad : forall tr,
  Forall (fun l => accepted_choice l = None) bad ->
  let asked :=
    (flat_map (fun l => [Prompt "Enter your choice (1 or 2): ";
                         Print (choice_complaint l)]) bad
     ++ [Prompt "Enter your choice (1 or 2): "])%list in
  ask_choice_loop bad tr = (Raise EOFError, [], (tr ++ asked)%list)
  /\ forall good rest c,
       accepted_choice good = Some c ->
       ask_choice_loop (bad ++ good :: rest) tr = (Ok c, rest, (tr ++ asked)%list)
       /\ (c = 1 \/ c = 2).
Proof.
  induction bad as [|line bad IH]; intros tr Hbad asked.
  - split; [reflexivity|]. intros good rest c Hc. unfold accepted_choice in Hc.
    cbn [app ask_choice_loop]. destruct (int good) as [choice|]; [|discriminate].
    destruct ((choice =? 1) || (choice =? 2)) eqn:E; [|discriminate].
    injection Hc as <-. split; [reflexivity | lia].
  - inversion Hbad as [|? ? Hline Hrest]; subst.
    assert (Hstep : forall lines,
              ask_choice_loop (line :: lines) tr
              = ask_choice_loop lines
                  ((tr ++ [Prompt "Enter your choice (1 or 2): "])
                   ++ [Print (choice_complaint line)])%list).
    { intros lines. unfold accepted_choice in Hline. unfold choice_complaint.
      cbn [ask_choice_loop]. destruct (int line) as [choice|]; [|reflexivity].
      destruct ((choice =? 1) || (choice =? 2)); [discriminate | reflexivity]. }
    destruct (IH ((tr ++ [Prompt "Enter your choice (1 or 2): "])
                  ++ [Print (choice_complaint line)])%list Hrest) as [Heof Hok].
    unfold asked. cbn [flat_map]. split.
    + rewrite Hstep, Heof. now rewrite <- !app_assoc.
    + intros good rest c Hc. rewrite <- app_comm_cons, Hstep.
      destruct (Hok good rest c Hc) as [E Hv]. rewrite E.
      split; [now rewrite <- !app_assoc | assumption].
Qed.

(** X4.  The numbering-style loop asks again after every line that is not
    1 or 2, printing one message per such line (one wording when the line
    is an integer, another when it is not), and returns the first line that
    is 1 or 2, leaving the lines after it unread.  When no line is left it
    raises EOFError.  What it returns is always 1 or 2. *)
Theorem ask_choice_reprompts (w : world FS) bad :
  Forall (fun l => accepted_choice l = None) bad ->
  let asked :=
    (flat_map (fun l => [Prompt "Enter your choice (1 or 2): ";
                         Print (choice_complaint l)]) bad
     ++ [Prompt "Enter your choice (1 or 2): "])%list in
  (stdin w = bad ->
   ask_choice w = (Raise EOFError, World [] (trace w ++ asked) (fs w)))
  /\ forall good rest c,
       stdin w = (bad ++ good :: rest)%list ->
       accepted_choice good = Some c ->
       ask_choice w = (Ok c, World rest (trace w ++ asked) (fs w))
       /\ (c = 1 \/ c = 2).
Proof.
  intros Hbad asked.
  destruct (ask_choice_loop_run bad (trace w) Hbad) as [Heof Hok]. split.
  - intros Hin. unfold ask_choice. now rewrite Hin, Heof.
  - intros good rest c Hin Hc. destruct (Hok good rest c Hc) as [E Hv].
    unfold ask_choice. now rewrite Hin, E.
Qed.

Lemma ask_start_index_loop_run bad : forall tr,
  Forall (fun l => accepted_start l = None) bad ->
  let asked :=
    (flat_map (fun l => [Prompt "Enter starting number/letter index (default is 1): ";
                         Print (start_complaint l)]) bad
     ++ [Prompt "Enter starting number/letter index (default is 1): "])%list in
  ask_start_index_loop bad tr = (Raise EOFError, [], (tr ++ asked)%list)
  /\ forall good rest c,
       accepted_start good = Some c ->
       ask_start_index_loop (bad ++ good :: rest) tr
       = (Ok c, rest, (tr ++ asked)%list)
       /\ 0 <= c.
Proof.
  induction bad as [|line bad IH]; intros tr Hbad asked.
  - split; [reflexivity|]. intros good rest c Hc. unfold accepted_start in Hc.
    cbn [app ask_start_index_loop].
    destruct (int (if truthy good then good else "1")) as [v|]; [|discriminate].
    destruct (v >=? 0) eqn:E; [|discriminate].
    injection Hc as <-. split; [reflexivity | lia].
  - inversion Hbad as [|? ? Hline Hrest]; subst.
    assert (Hstep : forall lines,
              ask_start_index_loop (line :: lines) tr
              = ask_start_index_loop lines
                  ((tr ++ [Prompt "Enter starting number/letter index (default is 1): "])
                   ++ [Print (start_complaint line)])%list).
    { intros lines. unfold accepted_start in Hline. unfold start_complaint.
      cbn [ask_start_index_loop].
      destruct (int (if truthy line then line else "1")) as [v|]; [|reflexivity].
      destruct (v >=? 0); [discriminate | reflexivity]. }
    destruct (IH ((tr ++ [Prompt "Enter starting number/letter index (default is 1): "])
                  ++ [Print (start_complaint line)])%list Hrest) as [Heof Hok].
    unfold asked. cbn [flat_map]. split.
    + rewrite Hstep, Heof. now rewrite <- !app_assoc.
    + intros good rest c Hc. rewrite <- app_comm_cons, Hstep.
      destruct (Hok good rest c Hc) as [E Hv]. rewrite E.
      split; [now rewrite <- !app_assoc | assumption].
Qed.

(** X5.  The starting-index loop asks again after every line that is not
    an integer of at least 0, a blank line counting as 1, printing one
    message per such line, and returns the first line that is; when no line
    is left it raises EOFError.  What it returns is never negative. *)
Theorem ask_start_index_reprompts (w : world FS) bad :
  Forall (fun l => accepted_start l = None) bad ->
  let asked :=
    (flat_map (fun l => [Prompt "Enter starting number/letter index (default is 1): ";
                         Print (start_complaint l)]) bad
     ++ [Prompt "Enter starting number/letter index (default is 1): "])%list in
  (stdin w = bad ->
   ask_start_index w = (Raise EOFError, World [] (trace w ++ asked) (fs w)))
  /\ forall good rest c,
       stdin w = (bad ++ good :: rest)%list ->
       accepted_start good = Some c ->
       ask_start_index w = (Ok c, World rest (trace w ++ asked) (fs w))
       /\ 0 <= c.
Proof.
  intros Hbad asked.
  destruct (ask_start_index_loop_run bad (trace w) Hbad) as [Heof Hok]. split.
  - intros Hin. unfold ask_start_index. now rewrite Hin, Heof.
  - intros good rest c Hin Hc. destruct (Hok good rest c Hc) as [E Hv].
    unfold ask_start_index. now rewrite Hin, E.
Qed.

Lemma ask_choice_loop_result lines : forall tr,
  match ask_choice_loop lines tr with
  | (Ok c, _, _) => c = 1 \/ c = 2
  | (Raise e, rest, _) => e = EOFError /\ rest = []
  end.
Proof.
  induction lines as [|line rest IH]; intros tr; cbn [ask_choice_loop].
  - now split.
  - destruct (int line) as [choice|]; [|apply IH].
    destruct ((choice =? 1) || (choice =? 2)) eqn:E; [lia | apply IH].
Qed.

Lemma ask_start_index_loop_result lines : forall tr,
  match ask_start_index_loop lines tr with
  | (Ok c, _, _) => 0 <= c
  | (Raise e, rest, _) => e = EOFError /\ rest = []
  end.
Proof.
  induction lines as [|line rest IH]; intros tr; cbn [ask_start_index_loop].
  - now split.
  - destruct (int (if truthy line then line else "1")) as [v|]; [|apply IH].
    destruct (v >=? 0) eqn:E; [lia | apply IH].
Qed.

Lemma eof_at_end_ret {A} (a : A) : eof_at_end (FS := FS) (ret a).
Proof. intros w w' E. discriminate E. Qed.

Lemma eof_at_end_print text : eof_at_end (FS := FS) (print text).
Proof. intros w w' E. discriminate E. Qed.

Lemma eof_at_end_getcwd : eof_at_end os_getcwd.
Proof.
  intros w w' E. unfold os_getcwd in E. destruct (getcwd (fs w)); discriminate E.
Qed.

Lemma eof_at_end_listdir path : eof_at_end (os_listdir path).
Proof.
  intros w w' E. unfold os_listdir in E.
  destruct (listdir (fs w) path); discriminate E.
Qed.

Lemma eof_at_end_isfile path : eof_at_end (os_path_isfile path).
Proof. intros w w' E. discriminate E. Qed.

Lemma eof_at_end_input text : eof_at_end (FS := FS) (input text).
Proof.
  intros w w' E. unfold input in E. destruct (stdin w) eqn:Hin; [|discriminate].
  now injection E as <-.
Qed.

Lemma eof_at_end_bind {A B} (m : M FS A) (k : A -> M FS B) :
  eof_at_end m -> (forall a, eof_at_end (k a)) -> eof_at_end (bind m k).
Proof.
  intros Hm Hk w w' E. unfold bind in E.
  destruct (m w) as [[a|e1] w1] eqn:Em.
  - now apply (Hk a w1).
  - injection E as -> <-. now apply (Hm w).
Qed.

Lemma eof_at_end_try {A} (m : M FS A) (h : exn -> option (M FS A)) :
  eof_at_end m -> (forall e k, h e = Some k -> eof_at_end k) ->
  eof_at_end (try_except m h).
Proof.
  intros Hm Hh w w' E. unfold try_except in E.
  destruct (m w) as [[a|e1] w1] eqn:Em; [discriminate|].
  destruct (h e1) as [k|] eqn:Eh.
  - now apply (Hh e1 k Eh w1).
  - injection E as -> <-. now apply (Hm w).
Qed.

Lemma eof_at_end_if {A} (b : bool) (m1 m2 : M FS A) :
  eof_at_end m1 -> eof_at_end m2 -> eof_at_end (if b then m1 else m2).
Proof. now destruct b. Qed.

Lemma eof_at_end_ask_choice : eof_at_end (FS := FS) ask_choice.
Proof.
  intros w w' E. unfold ask_choice in E.
  pose proof (ask_choice_loop_result (stdin w) (trace w)) as Hr.
  destruct (ask_choice_loop (stdin w) (trace w)) as [[[c|e1] lines] tr];
    [discriminate|].
  injection E as _ <-. now destruct Hr as [_ ->].
Qed.

Lemma eof_at_end_ask_start_index : eof_at_end (FS := FS) ask_start_index.
Proof.
  intros w w' E. unfold ask_start_index in E.
  pose proof (ask_start_index_loop_result (stdin w) (trace w)) as Hr.
  destruct (ask_start_index_loop (stdin w) (trace w)) as [[[c|e1] lines] tr];
    [discriminate|].
  injection E as _ <-. now destruct Hr as [_ ->].
Qed.

Ltac eof_at_end_tac :=
  repeat first
    [ apply eof_at_end_ret | apply eof_at_end_print | apply eof_at_end_input
    | apply eof_at_end_getcwd | apply eof_at_end_listdir
    | apply eof_at_end_isfile | apply eof_at_end_ask_choice
    | apply eof_at_end_ask_start_index
    | assumption
    | apply eof_at_end_bind; [| intros ]
    | apply eof_at_end_if ].

Lemma eof_at_end_get_user_preferences : eof_at_end get_user_preferences.
Proof. unfold get_user_preferences. eof_at_end_tac. Qed.

Lemma eof_at_end_keep_files directory names :
  eof_at_end (keep_files directory names).
Proof. induction names as [|f rest IH]; cbn [keep_files]; eof_at_end_tac. Qed.

Lemma eof_at_end_get_files_to_rename directory extension_filter :
  eof_at_end (get_files_to_rename directory extension_filter).
Proof.
  unfold get_files_to_rename. pose proof eof_at_end_keep_files.
  apply eof_at_end_try; [eof_at_end_tac; apply H|].
  intros e k Hk.
  destruct e as [|[[] text]]; try discriminate; injection Hk as <-; eof_at_end_tac.
Qed.

Lemma eof_at_end_preview_loop common_name numbering_style files : forall i,
  eof_at_end (FS := FS) (preview_loop common_name numbering_style i files).
Proof.
  induction files as [|f rest IH]; intros i; cbn [preview_loop]; eof_at_end_tac.
  apply IH.
Qed.

Lemma eof_at_end_preview_changes directory files common_name numbering_style
    start_index :
  eof_at_end (FS := FS)
    (preview_changes directory files common_name numbering_style start_index).
Proof.
  unfold preview_changes. pose proof eof_at_end_preview_loop as Hl.
  eof_at_end_tac. apply Hl.
Qed.

(** The step that settles the directory: the line stripped, or the current
    directory when that is empty, with the OSError of [os.getcwd]
    escaping. *)
Lemma directory_step d (w1 : world FS) :
  (if negb (truthy (strip d)) then os_getcwd else ret (strip d)) w1
  = match (if truthy (strip d) then inl (strip d) else getcwd (fs w1)) with
    | inl dir => (Ok dir, if truthy (strip d) then w1 else emit Getcwd w1)
    | inr e => (Raise (OSError e), emit Getcwd w1)
    end.
Proof.
  destruct (truthy (strip d)); [reflexivity|]. cbn [negb]. unfold os_getcwd.
  destruct (getcwd (fs w1)); reflexivity.
Qed.

(** X6.  The preferences returned are validated: the directory is the
    first line stripped, or the current directory when that is empty; the
    common name is the second line stripped and is not empty; the numbering
    style is 1 or 2; the starting index is at least 0; the extension filter
    is a line stripped and lowercased, and has none of the letters [A] to
    [Z].  Collecting them leaves the file system alone. *)
Theorem preferences_are_validated (w : world FS) d n rest p w' :
  stdin w = d :: n :: rest ->
  get_user_preferences w = (Ok (Some p), w') ->
  (if truthy (strip d) then inl (strip d) else getcwd (fs w)) = inl (directory p)
  /\ common_name p = strip n
  /\ common_name p <> ""
  /\ (numbering_style p = 1 \/ numbering_style p = 2)
  /\ 0 <= start_index p
  /\ (exists line, extension_filter p = lower (strip line))
  /\ has_upper (extension_filter p) = false
  /\ fs w' = fs w.
Proof.
  intros Hin E.
  assert (Hfs : fs w' = fs w).
  { destruct (read_only_get_user_preferences w) as [F _]. now rewrite E in F. }
  unfold get_user_preferences, bind, print, input, emit in E.
  cbn [stdin trace fs] in E. rewrite Hin in E.
  rewrite directory_step in E. cbn [fs] in E.
  destruct (if truthy (strip d) then inl (strip d) else getcwd (fs w))
    as [dir|e0] eqn:Hdir; [|discriminate].
  set (w1 := if truthy (strip d) then _ else _) in E.
  assert (Hin1 : stdin w1 = n :: rest).
  { unfold w1. destruct (truthy (strip d)); reflexivity. }
  rewrite Hin1 in E.
  destruct (truthy (strip n)) eqn:Hn; cbn [negb] in E; [|discriminate].
  unfold ret in E.
  match type of E with context [ask_choice ?w2] =>
    pose proof (ask_choice_loop_result (stdin w2) (trace w2)) as Hc;
    unfold ask_choice in E;
    destruct (ask_choice_loop (stdin w2) (trace w2)) as [[[c|e1] lines] tr];
    [|discriminate]
  end.
  match type of E with context [ask_start_index ?w3] =>
    pose proof (ask_start_index_loop_result (stdin w3) (trace w3)) as Hs;
    unfold ask_start_index in E;
    destruct (ask_start_index_loop (stdin w3) (trace w3)) as [[[s|e1] lines'] tr'];
    [|discriminate]
  end.
  cbn [stdin trace fs] in E. destruct lines' as [|x lines']; [discriminate|].
  injection E as <- _. cbn [directory common_name numbering_style start_index
                            extension_filter].
  repeat split; try assumption; try reflexivity.
  - intros Hempty. unfold truthy in Hn. rewrite Hempty in Hn. discriminate.
  - now exists x.
  - apply lower_has_no_upper.
Qed.

(** ** Further properties of the file lister *)

(** X8.  Without a filter (an empty one) the file lister returns every
    regular file of the directory, in the order of the listing, after one
    [isfile] test per entry, and prints how many there are. *)
Theorem lister_without_filter directory names (w : world FS) :
  listdir (fs w) directory = inl names ->
  let regular := filter (fun f => isfile (fs w) (OsPath.join directory f)) names in
  get_files_to_rename directory "" w =
  (Ok (Some regular),
   World (stdin w)
     (trace w
      ++ Listdir directory
         :: map (fun f => PathIsfile (OsPath.join directory f)) names
      ++ [Print ("Found " ++ str (llen regular) ++ " files in directory")])
     (fs w)).
Proof.
  intros Hl regular.
  unfold get_files_to_rename, try_except, bind, os_listdir.
  rewrite Hl, keep_files_run. cbn [truthy String.eqb negb].
  unfold print, ret, emit. cbn [stdin trace fs].
  now rewrite <- !app_assoc.
Qed.

(** X9.  An OSError of the listing that is neither FileNotFoundError nor
    PermissionError is not caught: it escapes from the file lister, and from
    [main], right after the listing was tried, with nothing printed for it
    and the file system untouched. *)
Theorem lister_lets_other_errors_escape (p : preferences) (w : world FS) err :
  listdir (fs w) (directory p) = inr err ->
  err_kind err = OtherOSError ->
  get_files_to_rename (directory p) (extension_filter p) w
  = (Raise (OSError err), emit (Listdir (directory p)) w)
  /\ forall w0,
       get_user_preferences w0 = (Ok (Some p), w) ->
       main w0 = (Raise (OSError err), emit (Listdir (directory p)) w).
Proof.
  intros Hl Hk.
  assert (E : get_files_to_rename (directory p) (extension_filter p) w
              = (Raise (OSError err), emit (Listdir (directory p)) w)).
  { unfold get_files_to_rename, try_except, bind, os_listdir. rewrite Hl.
    destruct err as [kind text]. simpl in Hk. subst kind. reflexivity. }
  split; [assumption|]. intros w0 Hp.
  unfold main. rewrite (bind_ok _ _ _ _ _ Hp). cbv iota beta.
  unfold bind. now rewrite E.
Qed.

(** X10.  A regular file with a name of ASCII characters whose extension,
    in lowercase, is the filter handed over (lowercased, with its leading
    dot) is always among the files returned. *)
Theorem extension_match_is_selected directory raw names (w : world FS) f :
  listdir (fs w) directory = inl names ->
  truthy (lower (strip raw)) = true ->
  In f names ->
  isfile (fs w) (OsPath.join directory f) = true ->
  is_ascii f = true ->
  lower (snd (OsPath.splitext f)) = dot_normalized (lower (strip raw)) ->
  exists files,
    fst (get_files_to_rename directory (lower (strip raw)) w) = Ok (Some files)
    /\ In f files.
Proof.
  intros Hl Hne Hin Hfile Hascii Hext.
  rewrite (get_files_to_rename_value _ _ _ _ Hl), Hne. cbv zeta.
  eexists. split; [reflexivity|].
  rewrite !filter_In. split; [now split|].
  replace (if negb (startswith (lower (strip raw)) ".")
           then "." ++ lower (strip raw) else lower (strip raw))
    with (dot_normalized (lower (strip raw)))
    by (unfold dot_normalized; destruct (startswith (lower (strip raw)) ".");
        reflexivity).
  destruct (splitext_spec f) as [Hsplit _].
  assert (Hparts : is_ascii (fst (OsPath.splitext f)) = true
                   /\ is_ascii (snd (OsPath.splitext f)) = true).
  { rewrite <- Hsplit, is_ascii_app in Hascii. now apply andb_prop in Hascii. }
  apply endswith_spec. exists (ascii_lower (fst (OsPath.splitext f))).
  rewrite <- Hext, (lower_on_ascii f Hascii), (lower_on_ascii _ (proj2 Hparts)).
  rewrite <- ascii_lower_app. now rewrite Hsplit.
Qed.

Lemma filter_none {A} (test : A -> bool) (l : list A) :
  (forall x, In x l -> test x = false) -> filter test l = [].
Proof.
  induction l as [|a l IH]; intros Hno; [reflexivity|]. simpl.
  rewrite (Hno a) by now left. apply IH. intros x Hx. apply Hno. now right.
Qed.

(** X11.  The file lister compares the filter as it is given: called with
    a filter that has an uppercase letter in it, it returns no file at all,
    whatever the directory holds. *)
Theorem uppercase_filter_selects_nothing directory extension_filter names
    (w : world FS) :
  listdir (fs w) directory = inl names ->
  has_upper extension_filter = true ->
  fst (get_files_to_rename directory extension_filter w) = Ok (Some []).
Proof.
  intros Hl Hup.
  rewrite (get_files_to_rename_value _ _ _ _ Hl).
  assert (Hne : truthy extension_filter = true).
  { destruct extension_filter; [discriminate | reflexivity]. }
  rewrite Hne. cbv zeta. do 2 f_equal. apply filter_none. intros f _.
  destruct (endswith (lower f) _) eqn:E; [|reflexivity].
  apply endswith_spec in E as [q E].
  apply (f_equal has_upper) in E. rewrite lower_has_no_upper, has_upper_app in E.
  symmetry in E. apply orb_false_iff in E as [_ E].
  destruct (negb (startswith extension_filter ".")); simpl in E; congruence.
Qed.

(** ** Further properties of the renamer *)

(** X12.  Take any file of the batch, with the files [pre] before it and
    [post] after it.  If its new name is free and [os.rename] succeeds, its
    pass prints "Renamed:" with the old and the new name, adds one to the
    counter and goes on from the file system [os.rename] left; the count
    returned for the batch is that counter plus the renames that succeed
    in [post]. *)
Theorem rename_success_is_counted directory common_name numbering_style
    start_index pre filename post c (w : world FS) :
  exists c1 w1,
    rename_loop directory common_name numbering_style start_index pre c w
    = (Ok c1, w1)
    /\ forall fs',
         let new_filename :=
           planned_name common_name numbering_style start_index
             (List.length pre) filename in
         exists_ (fs w1) (OsPath.join directory new_filename) = false ->
         rename (fs w1) (OsPath.join directory filename)
           (OsPath.join directory new_filename) = inl fs' ->
         let w2 :=
           World (stdin w1)
             (trace w1 ++ [PathExists (OsPath.join directory new_filename);
                           Rename (OsPath.join directory filename)
                             (OsPath.join directory new_filename) true;
                           Print ("Renamed: " ++ filename ++ " -> "
                                  ++ new_filename)])
             fs' in
         rename_to directory filename new_filename c1 w1 = (Ok (c1 + 1), w2)
         /\ exists evs fs'',
              rename_loop directory common_name numbering_style start_index
                (pre ++ filename :: post) c w
              = (Ok (c1 + 1 + renames_done evs),
                 World (stdin w2) (trace w2 ++ evs) fs'')
              /\ 0 <= renames_done evs <= llen post.
Proof.
  destruct (rename_loop_total directory common_name numbering_style pre
              start_index c w) as (evs0 & fs0 & Hpre & _).
  eexists; eexists. split; [exact Hpre|].
  intros fs' new_filename Hex Hren w2.
  assert (Hstep : rename_to directory filename new_filename
                    (c + renames_done evs0)
                    (World (stdin w) (trace w ++ evs0) fs0)
                  = (Ok (c + renames_done evs0 + 1), w2)).
  { rewrite rename_to_run. cbn [fs] in *. fold new_filename.
    rewrite Hex, Hren. reflexivity. }
  split; [assumption|].
  rewrite (rename_loop_at _ _ _ _ _ _ post _ _ _ _ _ _ Hpre Hstep).
  apply rename_loop_total.
Qed.

(** The events of one pass: one existence check, on the new path, and at
    most one rename, from the file's path to the new path. *)
Lemma rename_to_events directory filename new_filename c (w : world FS) :
  exists evs fs',
    rename_to directory filename new_filename c w
    = (Ok (c + renames_done evs), World (stdin w) (trace w ++ evs) fs')
    /\ checked_paths evs = [OsPath.join directory new_filename]
    /\ forall src dst ok, In (Rename src dst ok) evs ->
         src = OsPath.join directory filename
         /\ dst = OsPath.join directory new_filename.
Proof.
  rewrite rename_to_run.
  destruct (exists_ _ _); [|destruct (rename _ _ _)];
    match goal with
    | |- exists evs fs', (_, World _ (_ ++ ?l)%list ?f) = _ /\ _ => exists l, f
    end;
    cbn [renames_done checked_paths]; rewrite ?Z.add_0_r;
    (split; [reflexivity|]); (split; [reflexivity|]);
    intros src dst ok Hin; cbn [In] in Hin;
    repeat (destruct Hin as [Hin|Hin]; [try discriminate Hin|]);
    try contradiction; injection Hin as <- <- _; now split.
Qed.

Lemma checked_paths_app evs evs' :
  checked_paths (evs ++ evs') = (checked_paths evs ++ checked_paths evs')%list.
Proof.
  induction evs as [|e evs IH]; [reflexivity|].
  rewrite <- app_comm_cons. destruct e; cbn [checked_paths]; rewrite IH; reflexivity.
Qed.

Lemma rename_loop_events directory common_name numbering_style start_index files :
  forall k c (w : world FS),
  exists evs fs',
    rename_loop directory common_name numbering_style
      (start_index + Z.of_nat k) files c w
    = (Ok (c + renames_done evs), World (stdin w) (trace w ++ evs) fs')
    /\ checked_paths evs
       = map (fun pf => OsPath.join directory
                          (planned_name common_name numbering_style start_index
                             (fst pf) (snd pf)))
           (combine (seq k (List.length files)) files)
    /\ forall src dst ok, In (Rename src dst ok) evs ->
         exists p f, nth_error files p = Some f
                     /\ src = OsPath.join directory f
                     /\ dst = OsPath.join directory
                                (planned_name common_name numbering_style
                                   start_index (k + p) f).
Proof.
  induction files as [|f rest IH]; intros k c w.
  - exists [], (fs w). cbn [rename_loop renames_done]. unfold ret.
    rewrite app_nil_r, Z.add_0_r. destruct w; simpl.
    split; [reflexivity|]. split; [reflexivity|]. contradiction.
  - cbn [rename_loop]. unfold bind.
    fold (planned_name common_name numbering_style start_index k f).
    destruct (rename_to_events directory f
                (planned_name common_name numbering_style start_index k f) c w)
      as (evs1 & fs1 & E1 & Hc1 & Hr1).
    rewrite E1.
    replace (start_index + Z.of_nat k + 1) with (start_index + Z.of_nat (S k)) by lia.
    destruct (IH (S k) (c + renames_done evs1)
                (World (stdin w) (trace w ++ evs1) fs1))
      as (evs2 & fs2 & E2 & Hc2 & Hr2).
    rewrite E2. exists (evs1 ++ evs2)%list, fs2.
    rewrite renames_done_app, checked_paths_app, Hc1, Hc2. cbn [stdin trace].
    rewrite <- app_assoc, Z.add_assoc.
    split; [reflexivity|]. split; [reflexivity|].
    intros src dst ok Hin. apply in_app_or in Hin as [Hin|Hin].
    + destruct (Hr1 src dst ok Hin) as [-> ->]. exists O, f.
      rewrite Nat.add_0_r. now repeat split.
    + destruct (Hr2 src dst ok Hin) as (p & g & Hp & -> & ->).
      exists (S p), g. replace (k + S p)%nat with (S k + p)%nat by lia.
      now repeat split.
Qed.

(** X13.  [rename_files] asks once per file, in the order of the list,
    whether the file's new path exists, and about no other path.  Every
    rename it attempts, whether it succeeds or not, goes from the path of a
    file of the list to that file's new path: it never renames anything
    else.  What it returns is the number of renames that succeeded. *)
Theorem renamer_touches_only_planned directory files common_name
    numbering_style start_index (w : world FS) :
  exists evs fs',
    rename_files directory files common_name numbering_style start_index w
    = (Ok (renames_done evs), World (stdin w) (trace w ++ evs) fs')
    /\ checked_paths evs
       = map (fun pf => OsPath.join directory
                          (planned_name common_name numbering_style start_index
                             (fst pf) (snd pf)))
           (positions files)
    /\ forall src dst ok, In (Rename src dst ok) evs ->
         exists p f, nth_error files p = Some f
                     /\ src = OsPath.join directory f
                     /\ dst = OsPath.join directory
                                (planned_name common_name numbering_style
                                   start_index p f).
Proof.
  unfold rename_files, bind, print.
  destruct (rename_loop_events directory common_name numbering_style start_index
              files O 0
              (emit (Print (nl ++ "Renaming " ++ str (llen files) ++ " files...")) w))
    as (evs & fs' & E & Hc & Hr).
  rewrite Z.add_0_r in E. rewrite E.
  exists (Print (nl ++ "Renaming " ++ str (llen files) ++ " files...") :: evs), fs'.
  unfold emit. cbn [stdin trace renames_done checked_paths].
  rewrite <- app_assoc, Z.add_0_l.
  split; [reflexivity|]. split; [exact Hc|].
  intros src dst ok [Hin|Hin]; [discriminate|]. exact (Hr src dst ok Hin).
Qed.

(** ** Further properties of the preview and of [main] *)

Lemma preview_loop_events common_name numbering_style start_index files :
  forall k (w : world FS),
  preview_loop common_name numbering_style (start_index + Z.of_nat k) files w
  = (Ok tt,
     World (stdin w)
       (trace w
        ++ map (fun pf => Print (snd pf ++ " -> "
                                 ++ planned_name common_name numbering_style
                                      start_index (fst pf) (snd pf)))
             (combine (seq k (List.length files)) files))
       (fs w)).
Proof.
  induction files as [|f rest IH]; intros k w.
  - simpl. unfold ret. rewrite app_nil_r. now destruct w.
  - cbn [preview_loop]. unfold bind, print.
    replace (start_index + Z.of_nat k + 1) with (start_index + Z.of_nat (S k)) by lia.
    rewrite IH. unfold emit. cbn [stdin trace fs List.length seq combine map fst snd].
    rewrite <- app_assoc. reflexivity.
Qed.

(** X14.  The preview writes its three heading lines, then one line
    "old -> new" for each of the first five files at most, in order and with
    the new name of the file's position, then the line "... and N more
    files" exactly when there are more than five files (N being their number
    less five), then the question; it returns whether the answer, stripped
    and lowercased, is "y". *)
Theorem preview_shows_first_five directory files common_name numbering_style
    start_index (w : world FS) line rest :
  stdin w = line :: rest ->
  preview_changes directory files common_name numbering_style start_index w
  = (Ok (String.eqb (lower (strip line)) "y"),
     World rest
       (trace w
        ++ [Print (nl ++ "=== PREVIEW OF CHANGES ===");
            Print "Old names -> New names";
            Print rule]
        ++ map (fun pf => Print (snd pf ++ " -> "
                                 ++ planned_name common_name numbering_style
                                      start_index (fst pf) (snd pf)))
             (positions (firstn 5 files))
        ++ (if llen files >? 5
            then [Print ("... and " ++ str (llen files - 5) ++ " more files")]
            else [])
        ++ [Prompt (nl ++ "Proceed with renaming? (y/n): ")])
       (fs w)).
Proof.
  intros Hin. unfold preview_changes, bind, print.
  pose proof (preview_loop_events common_name numbering_style start_index
                (firstn 5 files) O) as Hloop.
  rewrite Z.add_0_r in Hloop. rewrite Hloop.
  unfold emit, positions. cbn [stdin trace fs].
  destruct (llen files >? 5); unfold print, ret, input, emit;
    cbn [stdin trace fs]; rewrite Hin; rewrite <- !app_assoc; reflexivity.
Qed.

(** X15.  When the files were listed and the answer at the gate is "y"
    once stripped and lowercased, [main] runs [rename_files] on the listed
    files, with the preferences collected, from the world the gate left:
    its final file system and trace are those [rename_files] leaves, with
    the two closing lines added, the second being "Successfully renamed C
    out of N files" where C is what [rename_files] returned, the number of
    renames that succeeded, and N the number of files listed.  Nothing
    before the renamer renames anything. *)
Theorem confirmed_run_reports_count (w0 : world FS) p wp f files w line rest :
  get_user_preferences w0 = (Ok (Some p), wp) ->
  get_files_to_rename (directory p) (extension_filter p) wp
  = (Ok (Some (f :: files)), w) ->
  stdin w = line :: rest ->
  String.eqb (lower (strip line)) "y" = true ->
  exists wg count wr,
    preview_changes (directory p) (f :: files) (common_name p)
      (numbering_style p) (start_index p) w = (Ok true, wg)
    /\ rename_files (directory p) (f :: files) (common_name p)
         (numbering_style p) (start_index p) wg = (Ok count, wr)
    /\ main w0
       = (Ok tt,
          World (stdin wr)
            (trace wr
             ++ [Print (nl ++ "=== RENAMING COMPLETE ===");
                 Print ("Successfully renamed " ++ str count
                        ++ " out of " ++ str (llen (f :: files)) ++ " files")])
            (fs wr))
    /\ fs wg = fs w0
    /\ (exists before,
          trace wg = (trace w0 ++ before)%list /\ harmless before = true)
    /\ (exists renaming,
          trace wr = (trace wg ++ renaming)%list
          /\ count = renames_done renaming
          /\ 0 <= count <= llen (f :: files)).
Proof.
  intros Hp Hf Hin Hyes.
  destruct (preview_changes_run (directory p) (f :: files) (common_name p)
              (numbering_style p) (start_index p) w line rest Hin)
    as (evs2 & E2 & H2).
  rewrite Hyes in E2.
  destruct (rename_files_total (directory p) (f :: files) (common_name p)
              (numbering_style p) (start_index p)
              (World rest (trace w ++ evs2) (fs w)))
    as (evs3 & fs3 & E3 & Hb).
  destruct (read_only_get_user_preferences w0) as (F0 & evs0 & T0 & H0).
  destruct (read_only_get_files_to_rename (directory p) (extension_filter p) wp)
    as (F1 & evs1 & T1 & H1).
  rewrite Hp in F0, T0. rewrite Hf in F1, T1. cbn [snd] in F0, T0, F1, T1.
  eexists; eexists; eexists.
  split; [exact E2|]. split; [exact E3|]. split; [|split; [|split]].
  - unfold main. rewrite (bind_ok _ _ _ _ _ Hp). cbv iota beta.
    rewrite (bind_ok _ _ _ _ _ Hf).
    unfold main_after_listing. cbn [files_truthy negb].
    unfold main_confirm_and_rename. rewrite (bind_ok _ _ _ _ _ E2).
    cbn [negb]. rewrite (bind_ok _ _ _ _ _ E3).
    unfold bind, print, emit. cbn [stdin trace fs].
    rewrite <- !app_assoc. reflexivity.
  - cbn [fs]. congruence.
  - exists (evs0 ++ evs1 ++ evs2)%list. cbn [trace].
    rewrite T1, T0, <- !app_assoc, !harmless_app, H0, H1, H2. now split.
  - exists evs3. cbn [trace]. now repeat split.
Qed.

(** X16.  If [main] ends with EOFError, a prompt found no line left and
    nothing was renamed: the input is used up, the file system is the one
    [main] started with, and the trace holds no rename.  (The prompts all
    come before the renamer, which reads nothing.) *)
Theorem main_crash_renames_nothing (w : world FS) w' :
  main w = (Raise EOFError, w') ->
  stdin w' = []
  /\ fs w' = fs w
  /\ exists evs, trace w' = (trace w ++ evs)%list /\ harmless evs = true.
Proof.
  intros E. unfold main in E. unfold bind at 1 in E.
  destruct (read_only_get_user_preferences w) as (F0 & evs0 & T0 & H0).
  destruct (get_user_preferences w) as [[[p|]|e0] wp] eqn:Ep;
    cbn [snd] in F0, T0; [| discriminate |].
  2:{ injection E as -> <-.
      split; [exact (eof_at_end_get_user_preferences w wp Ep)|].
      split; [assumption | now exists evs0]. }
  unfold bind at 1 in E.
  destruct (read_only_get_files_to_rename (directory p) (extension_filter p) wp)
    as (F1 & evs1 & T1 & H1).
  destruct (get_files_to_rename (directory p) (extension_filter p) wp)
    as [[files|e1] wl] eqn:El; cbn [snd] in F1, T1.
  2:{ injection E as -> <-.
      split; [exact (eof_at_end_get_files_to_rename _ _ wp wl El)|].
      split; [congruence|].
      exists (evs0 ++ evs1)%list.
      rewrite T1, T0, app_assoc, harmless_app, H0, H1. now split. }
  unfold main_after_listing in E.
  destruct files as [[|f files]|]; cbn [files_truthy negb] in E;
    try discriminate E.
  unfold main_confirm_and_rename in E. unfold bind at 1 in E.
  destruct (read_only_preview_changes (directory p) (f :: files) (common_name p)
              (numbering_style p) (start_index p) wl) as (F2 & evs2 & T2 & H2).
  destruct (preview_changes (directory p) (f :: files) (common_name p)
              (numbering_style p) (start_index p) wl) as [[go|e2] wg] eqn:Eg;
    cbn [snd] in F2, T2.
  - destruct go; cbn [negb] in E; [|discriminate E].
    unfold bind at 1 in E.
    destruct (rename_files_total (directory p) (f :: files) (common_name p)
                (numbering_style p) (start_index p) wg) as (evs3 & fs3 & E3 & _).
    rewrite E3 in E. discriminate E.
  - injection E as -> <-.
    split; [exact (eof_at_end_preview_changes _ _ _ _ _ wl wg Eg)|].
    split; [congruence|].
    exists (evs0 ++ evs1 ++ evs2)%list.
    rewrite T2, T1, T0, <- !app_assoc, !harmless_app, H0, H1, H2. now split.
Qed.

End Properties.

Lemma int_two {rt : Runtime} : int "2" = Some 2.
Proof. rewrite int_on_ascii; [reflexivity | reflexivity | cbn; lia]. Qed.

Lemma int_zero {rt : Runtime} : int "0" = Some 0.
Proof. rewrite int_on_ascii; [reflexivity | reflexivity | cbn; lia]. Qed.

Lemma preferences_accept_zero_letters {FS : Type} {os : OS FS} {rt : Runtime}
    (w : world FS) d n e rest :
  stdin w = d :: n :: "2" :: "0" :: e :: rest ->
  truthy (strip n) = true ->
  match (if truthy (strip d) then inl (strip d) else getcwd (fs w)) with
  | inl dir =>
      exists w',
        get_user_preferences w
        = (Ok (Some (Preferences dir (strip n) 2 0 (lower (strip e)))), w')
        /\ stdin w' = rest /\ fs w' = fs w
  | inr err =>
      exists w',
        get_user_preferences w = (Raise (OSError err), w') /\ fs w' = fs w
  end.
Proof.
  intros Hin Hn.
  unfold get_user_preferences, bind, print, input, emit. cbn [stdin trace fs].
  rewrite Hin, directory_step. cbn [fs].
  destruct (if truthy (strip d) then inl (strip d) else getcwd (fs w))
    as [dir|err]; [|eexists; split; reflexivity].
  set (w1 := if truthy (strip d) then _ else _).
  assert (Hw1 : stdin w1 = n :: "2" :: "0" :: e :: rest /\ fs w1 = fs w).
  { unfold w1. destruct (truthy (strip d)); split; reflexivity. }
  destruct Hw1 as [Hin1 Hfs1]. rewrite Hin1, Hn. cbn [negb].
  unfold ret, ask_choice, ask_start_index. cbn [stdin trace fs ask_choice_loop].
  rewrite int_two. cbn [Z.eqb Pos.eqb orb stdin trace fs ask_start_index_loop].
  change (truthy "0") with true. cbv iota. rewrite int_zero.
  change (0 >=? 0) with true. cbv iota. cbn [stdin trace fs].
  eexists. split; [reflexivity|]. split; [reflexivity | exact Hfs1].
Qed.

(** C8.  [generate_suffix(0, 2)] is the empty string, and the preference
    collector accepts the choice 2 together with the starting index 0: on
    those answers it returns preferences with that style and that index
    (unless the directory line is blank and [os.getcwd] fails, whose OSError
    escapes before any of the two is asked).  On the directory [pics] the
    run then renames [x.png] to [photo_.png]. *)
Theorem zero_index_letters_unguarded :
  generate_suffix 0 2 = ""
  /\ (forall (FS : Type) (os : OS FS) (rt : Runtime) (w : world FS) d n e rest,
        stdin w = d :: n :: "2" :: "0" :: e :: rest ->
        truthy (strip n) = true ->
        match (if truthy (strip d) then inl (strip d) else getcwd (fs w)) with
        | inl dir =>
            exists w',
              get_user_preferences w
              = (Ok (Some (Preferences dir (strip n) 2 0 (lower (strip e)))), w')
              /\ stdin w' = rest /\ fs w' = fs w
        | inr err =>
            exists w',
              get_user_preferences w = (Raise (OSError err), w')
              /\ fs w' = fs w
        end)
  /\ exists w',
       main (World ["pics"; "photo"; "2"; "0"; ""; "y"] [] Disk.pics) = (Ok tt, w')
       /\ In (Rename "pics/x.png" "pics/photo_.png" true) (trace w').
Proof.
  split; [reflexivity|]. split.
  - intros FS os rt. apply preferences_accept_zero_letters.
  - eexists. split; [vm_compute; reflexivity|].
    cbn [trace In]. repeat first [left; reflexivity | right].
Qed.

(** On every runtime the line " y" counts as a yes at the gate. *)
Lemma padded_y_counts_as_yes {rt : Runtime} :
  String.eqb (lower (strip " y")) "y" = true.
Proof.
  rewrite (strip_on_ascii " y") by reflexivity.
  rewrite (lower_on_ascii (ascii_strip " y")) by reflexivity.
  reflexivity.
Qed.

(** C4 as stated fails: the line " y" is not "y" in any letter case, yet
    the gate returns [True] on it and [main] goes on to rename. *)
Lemma padded_y_is_accepted :
  String.eqb (lower " y") "y" = false
  /\ fst (preview_changes "pics" ["x.png"] "photo" 1 1 (World [" y"] [] Disk.pics))
     = Ok true
  /\ In (Rename "pics/x.png" "pics/photo_1.png" true)
       (trace (snd (main (World ["pics"; "photo"; "1"; "1"; ""; " y"] [] Disk.pics)))).
Proof.
  split; [reflexivity|]. split; [reflexivity|].
  vm_compute. repeat first [left; reflexivity | right].
Qed.


(** * The theorems at work on concrete runs *)

Lemma generate_suffix_spec_witness :
  1 <= 703
  /\ generate_suffix 703 1 = "703"
  /\ decimal_value "703" = Some 703
  /\ generate_suffix 703 2 = "aaa"
  /\ bijective26_value "aaa" = 703.
Proof.
  assert (Hi : 1 <= 703) by lia.
  destruct (generate_suffix_spec 703 Hi) as (H1 & H2 & _ & H4 & _).
  split; [exact Hi|]. split; [exact H1|]. split; [exact H2|].
  split; [reflexivity | exact H4].
Defined.

Lemma generate_suffix_terminates_witness :
  0 <= (27 - 1) / 26 < 27
  /\ generate_suffix_loop 0 (-4) "zz" = Some "zz"
  /\ generate_suffix (-4) 2 = "".
Proof.
  destruct (generate_suffix_terminates 27 2) as (_ & Hdec & _).
  destruct (generate_suffix_terminates (-4) 2) as (_ & _ & Hstop & Hempty).
  split; [apply Hdec; lia|].
  split; [apply Hstop; lia | apply Hempty; lia].
Defined.

Lemma new_filename_formula_witness :
  nth_error ["x.png"; "y.png"] 1 = Some "y.png"
  /\ planned_name "photo" 1 1 1 "y.png" = "photo_2.png"
  /\ (forall w : world disk,
        rename_files "pics" ["x.png"; "y.png"] "photo" 1 1 w =
        (print (nl ++ "Renaming 2 files...") ;;
         c1 <- rename_loop "pics" "photo" 1 1 ["x.png"] 0 ;;
         c2 <- rename_to "pics" "y.png" "photo_2.png" c1 ;;
         rename_loop "pics" "photo" 1 3 [] c2) w)
  /\ (forall w : world disk,
        preview_loop "photo" 1 1 ["x.png"; "y.png"] w =
        (preview_loop "photo" 1 1 ["x.png"] ;;
         print "y.png -> photo_2.png" ;;
         preview_loop "photo" 1 3 []) w).
Proof.
  destruct (new_filename_formula (FS := disk) "pics" "photo" 1 1
              ["x.png"; "y.png"] 1 "y.png" eq_refl) as (Hr & Hp & _).
  split; [reflexivity|]. split; [reflexivity|]. split; [exact Hr|].
  apply Hp. lia.
Defined.

Lemma collision_is_skipped_witness :
  exists_ crowded "pics/photo_1.png" = true
  /\ rename_loop "pics" "photo" 1 1 ["x.png"; "y.png"] 0 (World [] [] crowded)
     = rename_loop "pics" "photo" 1 2 ["y.png"] 0
         (World []
            [PathExists "pics/photo_1.png";
             Print "Warning: photo_1.png already exists! Skipping x.png"]
            crowded).
Proof.
  destruct (collision_is_skipped "pics" "photo" 1 1 [] "x.png" ["y.png"] 0
              (World [] [] crowded)) as (c1 & w1 & Hpre & Hskip).
  injection Hpre as <- <-.
  split; [reflexivity|].
  destruct (Hskip eq_refl) as (_ & Hall & _). exact Hall.
Defined.

Lemma rename_failure_is_isolated_witness :
  exists_ crowded "pics/photo_2.png" = false
  /\ rename_loop "pics" "photo" 1 2 ["y.png"; "x.png"] 0 (World [] [] crowded)
     = rename_loop "pics" "photo" 1 3 ["x.png"] 0
         (World []
            [PathExists "pics/photo_2.png";
             Rename "pics/y.png" "pics/photo_2.png" false;
             Print "Error renaming y.png: [Errno 13] Permission denied: 'pics/y.png' -> 'pics/photo_2.png'"]
            crowded)
  /\ fst (rename_files "pics" ["y.png"; "x.png"] "photo" 1 2 (World [] [] crowded))
     = Ok 1.
Proof.
  destruct (rename_failure_is_isolated "pics" "photo" 1 2 [] "y.png" ["x.png"] 0
              (World [] [] crowded)) as (c1 & w1 & Hpre & Hfail & _).
  injection Hpre as <- <-.
  split; [reflexivity|].
  destruct (Hfail _ eq_refl eq_refl) as (_ & Hall & _).
  split; [exact Hall | reflexivity].
Defined.

Lemma lister_filters_by_suffix_witness :
  listdir docs "docs" = inl ["a.txt"; "b.txt"; "c.jpg"]
  /\ truthy (lower (strip " TXT")) = true
  /\ fst (get_files_to_rename "docs" "txt" (World [] [] docs))
     = Ok (Some ["a.txt"; "b.txt"])
  /\ fst (get_files_to_rename "docs" ".txt" (World [] [] docs))
     = Ok (Some ["a.txt"; "b.txt"]).
Proof.
  split; [reflexivity|]. split; [reflexivity|]. split.
  - exact (proj1 (lister_filters_by_suffix "docs" " TXT" ["a.txt"; "b.txt"; "c.jpg"]
                    (World [] [] docs) eq_refl eq_refl)).
  - exact (proj1 (lister_filters_by_suffix "docs" ".txt" ["a.txt"; "b.txt"; "c.jpg"]
                    (World [] [] docs) eq_refl eq_refl)).
Defined.

Lemma empty_common_name_aborts_witness :
  strip "  " = ""
  /\ main (World ["pics"; "  "; "1"] [] pics)
     = (Ok tt,
        World ["1"]
          [Print "=== File Renaming Automation ===";
           Prompt "Enter the directory path (or press Enter for current directory): ";
           Prompt "Enter the common name for all files: ";
           Print "Error: Common name cannot be empty!"]
          pics).
Proof.
  assert (Hn : strip "  " = "") by reflexivity.
  destruct (empty_common_name_aborts (World ["pics"; "  "; "1"] [] pics)
              "pics" "  " ["1"] eq_refl Hn) as (Hcase & _).
  hnf in Hcase. destruct Hcase as [_ Hmain].
  split; [exact Hn | exact Hmain].
Defined.

Lemma zero_index_letters_unguarded_witness :
  truthy (strip "img") = true
  /\ exists dir,
       fst (get_user_preferences (World ["pics"; "img"; "2"; "0"; ".JPG"] [] pics))
       = Ok (Some (Preferences dir "img" 2 0 ".jpg")).
Proof.
  destruct zero_index_letters_unguarded as (_ & Hprefs & _).
  assert (Hn : truthy (strip "img") = true) by reflexivity.
  pose proof (Hprefs disk _ _ (World ["pics"; "img"; "2"; "0"; ".JPG"] [] pics)
                "pics" "img" ".JPG" [] eq_refl Hn) as Hcase.
  hnf in Hcase. destruct Hcase as (w' & E & _).
  split; [exact Hn|]. exists "pics". rewrite E. reflexivity.
Defined.

Lemma listing_failure_is_like_empty_witness :
  let w0 := World ["nowhere"; "photo"; "1"; "1"; ""] [] pics in
  let p := Preferences "nowhere" "photo" 1 1 "" in
  let w := snd (get_user_preferences w0) in
  get_user_preferences w0 = (Ok (Some p), w)
  /\ exists w1,
       get_files_to_rename "nowhere" "" w = (Ok None, w1)
       /\ main w0 = (Ok tt, emit (Print "No files found to rename!") w1)
       /\ fs w1 = pics.
Proof.
  intros w0 p w.
  destruct (listing_failure_is_like_empty p w) as (_ & Hfail & Hmain).
  destruct (Hfail {| err_kind := FileNotFoundError;
                     err_text := "[Errno 2] No such file or directory: 'nowhere'" |}
              eq_refl (or_introl eq_refl)) as (text & E).
  split; [reflexivity|]. eexists. split; [exact E|].
  destruct (Hmain w0 _ None eq_refl E (or_introl eq_refl)) as (Hm & Hfs & _).
  split; [exact Hm | exact Hfs].
Defined.

Lemma decline_halts_before_renamer_witness :
  let w0 := World ["pics"; "photo"; "1"; ""; ".png"; "n"] [] pics in
  String.eqb (lower (strip "n")) "y" = false
  /\ fst (preview_changes "pics" ["x.png"] "photo" 1 1 (World ["n"] [] pics))
     = Ok false
  /\ fst (main w0) = Ok tt
  /\ fs (snd (main w0)) = pics.
Proof.
  intros w0.
  assert (Hno : String.eqb (lower (strip "n")) "y" = false) by reflexivity.
  split; [exact Hno|]. split.
  - destruct (decline_halts_before_renamer (World ["n"] [] pics) "n" []
                eq_refl Hno) as (Hgate & _).
    destruct (Hgate "pics" ["x.png"] "photo" 1 1) as (evs & E & _).
    rewrite E. reflexivity.
  - set (wp := snd (get_user_preferences w0)).
    set (w := snd (get_files_to_rename "pics" ".png" wp)).
    assert (Hin : stdin w = ["n"]) by (vm_compute; reflexivity).
    assert (Hp : get_user_preferences w0
                 = (Ok (Some (Preferences "pics" "photo" 1 1 ".png")), wp))
      by (vm_compute; reflexivity).
    assert (Hf : get_files_to_rename "pics" ".png" wp
                 = (Ok (Some ["x.png"; "y.png"; "z.PNG"]), w))
      by (vm_compute; reflexivity).
    destruct (decline_halts_before_renamer w "n" [] Hin Hno) as (_ & Hmain).
    destruct (Hmain w0 (Preferences "pics" "photo" 1 1 ".png") wp
                "x.png" ["y.png"; "z.PNG"] Hp Hf) as (evs & E & _).
    rewrite E. split; reflexivity.
Defined.

(** * The further properties at work on concrete runs *)

Lemma generate_suffix_injective_witness :
  0 <= 27 /\ generate_suffix 27 2 = "aa" /\ 27 = 27.
Proof.
  assert (H0 : 0 <= 27) by lia.
  split; [exact H0|]. split; [reflexivity|].
  exact (generate_suffix_injective 2 27 27 H0 H0 eq_refl).
Defined.

Lemma planned_names_distinct_witness :
  0 <= 1
  /\ planned_name "photo" 1 1 1 "y.png" = planned_name "photo" 1 1 1 "z.png"
  /\ (1 = 1)%nat.
Proof.
  assert (H0 : 0 <= 1) by lia.
  split; [exact H0|]. split; [reflexivity|].
  exact (proj1 (planned_names_distinct "photo" 1 1 1 1 "y.png" "z.png" H0 eq_refl)).
Defined.

Lemma generate_suffix_single_letter_witness :
  1 <= 3 <= 26 /\ generate_suffix 3 2 = "c".
Proof.
  assert (H3 : 1 <= 3 <= 26) by lia.
  split; [exact H3|]. exact (generate_suffix_single_letter 3 H3).
Defined.

Lemma ask_choice_reprompts_witness :
  accepted_choice "x" = None /\ accepted_choice "3" = None
  /\ accepted_choice " 2 " = Some 2
  /\ ask_choice (World ["x"; "3"; " 2 "; "0"] [] pics)
     = (Ok 2,
        World ["0"]
          [Prompt "Enter your choice (1 or 2): ";
           Print "Please enter a valid number (1 or 2)";
           Prompt "Enter your choice (1 or 2): ";
           Print "Please enter 1 or 2";
           Prompt "Enter your choice (1 or 2): "]
          pics).
Proof.
  split; [reflexivity|]. split; [reflexivity|]. split; [reflexivity|].
  assert (Hbad : Forall (fun l => accepted_choice l = None) ["x"; "3"]).
  { repeat constructor. }
  destruct (ask_choice_reprompts (World ["x"; "3"; " 2 "; "0"] [] pics)
              ["x"; "3"] Hbad) as [_ Hok].
  exact (proj1 (Hok " 2 " ["0"] 2 eq_refl eq_refl)).
Defined.

Lemma ask_start_index_reprompts_witness :
  accepted_start "-1" = None /\ accepted_start "abc" = None
  /\ accepted_start "" = Some 1
  /\ ask_start_index (World ["-1"; "abc"; ""; ".png"] [] pics)
     = (Ok 1,
        World [".png"]
          [Prompt "Enter starting number/letter index (default is 1): ";
           Print "Please enter a non-negative number";
           Prompt "Enter starting number/letter index (default is 1): ";
           Print "Please enter a valid number";
           Prompt "Enter starting number/letter index (default is 1): "]
          pics).
Proof.
  split; [reflexivity|]. split; [reflexivity|]. split; [reflexivity|].
  assert (Hbad : Forall (fun l => accepted_start l = None) ["-1"; "abc"]).
  { repeat constructor. }
  destruct (ask_start_index_reprompts (World ["-1"; "abc"; ""; ".png"] [] pics)
              ["-1"; "abc"] Hbad) as [_ Hok].
  exact (proj1 (Hok "" [".png"] 1 eq_refl eq_refl)).
Defined.

Lemma preferences_are_validated_witness :
  let w := World [""; " photo "; "2"; "0"; " .PNG"] [] pics in
  let p := Preferences "/home/u" "photo" 2 0 ".png" in
  fst (get_user_preferences w) = Ok (Some p)
  /\ getcwd pics = inl (directory p)
  /\ common_name p = strip " photo "
  /\ has_upper (extension_filter p) = false.
Proof.
  intros w p.
  assert (E : get_user_preferences w = (Ok (Some p), snd (get_user_preferences w)))
    by (vm_compute; reflexivity).
  destruct (preferences_are_validated w "" " photo " ["2"; "0"; " .PNG"] p
              (snd (get_user_preferences w)) eq_refl E)
    as (Hd & Hn & _ & _ & _ & _ & Hu & _).
  split; [reflexivity|]. split; [exact Hd|]. split; [exact Hn | exact Hu].
Defined.

Lemma lister_without_filter_witness :
  listdir pics "pics" = inl ["x.png"; "old"; "y.png"; "z.PNG"]
  /\ get_files_to_rename "pics" "" (World [] [] pics)
     = (Ok (Some ["x.png"; "y.png"; "z.PNG"]),
        World []
          [Listdir "pics"; PathIsfile "pics/x.png"; PathIsfile "pics/old";
           PathIsfile "pics/y.png"; PathIsfile "pics/z.PNG";
           Print "Found 3 files in directory"]
          pics).
Proof.
  split; [reflexivity|].
  exact (lister_without_filter "pics" ["x.png"; "old"; "y.png"; "z.PNG"]
           (World [] [] pics) eq_refl).
Defined.

Lemma lister_lets_other_errors_escape_witness :
  let p := Preferences "notes.txt" "photo" 1 1 "" in
  let w0 := World ["notes.txt"; "photo"; "1"; "1"; ""] [] tt in
  let err := {| err_kind := OtherOSError;
                err_text := "[Errno 20] Not a directory: 'notes.txt'" |} in
  fst (get_user_preferences (os := unlistable) w0) = Ok (Some p)
  /\ fst (main (os := unlistable) w0) = Raise (OSError err)
  /\ fs (snd (main (os := unlistable) w0)) = tt.
Proof.
  intros p w0 err.
  destruct (lister_lets_other_errors_escape (os := unlistable) p
              (snd (get_user_preferences (os := unlistable) w0)) err
              eq_refl eq_refl) as [_ Hmain].
  rewrite (Hmain w0 eq_refl). split; [reflexivity|]. split; reflexivity.
Defined.

Lemma extension_match_is_selected_witness :
  is_ascii "a.txt" = true
  /\ lower (snd (OsPath.splitext "a.txt")) = dot_normalized (lower (strip " TXT"))
  /\ exists files,
       fst (get_files_to_rename "docs" "txt" (World [] [] docs)) = Ok (Some files)
       /\ In "a.txt" files.
Proof.
  assert (Hne : truthy (lower (strip " TXT")) = true) by reflexivity.
  assert (Hext : lower (snd (OsPath.splitext "a.txt"))
                 = dot_normalized (lower (strip " TXT"))) by reflexivity.
  split; [reflexivity|]. split; [exact Hext|].
  exact (extension_match_is_selected "docs" " TXT" ["a.txt"; "b.txt"; "c.jpg"]
           (World [] [] docs) "a.txt" eq_refl Hne (or_introl eq_refl)
           eq_refl eq_refl Hext).
Defined.

Lemma uppercase_filter_selects_nothing_witness :
  has_upper ".TXT" = true
  /\ fst (get_files_to_rename "docs" ".TXT" (World [] [] docs)) = Ok (Some []).
Proof.
  split; [reflexivity|].
  exact (uppercase_filter_selects_nothing "docs" ".TXT" ["a.txt"; "b.txt"; "c.jpg"]
           (World [] [] docs) eq_refl eq_refl).
Defined.

Lemma rename_success_is_counted_witness :
  exists_ crowded "pics/photo_2.png" = false
  /\ exists fs',
       rename crowded "pics/x.png" "pics/photo_2.png" = inl fs'
       /\ rename_to "pics" "x.png" "photo_2.png" 0 (World [] [] crowded)
          = (Ok 1,
             World []
               [PathExists "pics/photo_2.png";
                Rename "pics/x.png" "pics/photo_2.png" true;
                Print "Renamed: x.png -> photo_2.png"]
               fs').
Proof.
  destruct (rename_success_is_counted "pics" "photo" 1 2 [] "x.png" ["y.png"] 0
              (World [] [] crowded)) as (c1 & w1 & Hpre & Hok).
  injection Hpre as <- <-.
  split; [reflexivity|]. eexists. split; [reflexivity|].
  exact (proj1 (Hok _ eq_refl eq_refl)).
Defined.

Lemma renamer_touches_only_planned_witness :
  exists evs fs',
    rename_files "pics" ["x.png"; "y.png"] "photo" 1 1 (World [] [] pics)
    = (Ok (renames_done evs), World [] evs fs')
    /\ checked_paths evs = ["pics/photo_1.png"; "pics/photo_2.png"].
Proof.
  destruct (renamer_touches_only_planned "pics" ["x.png"; "y.png"] "photo" 1 1
              (World [] [] pics)) as (evs & fs' & E & Hc & _).
  exists evs, fs'. split; [exact E | exact Hc].
Defined.

Lemma preview_shows_first_five_witness :
  preview_changes "pics" ["a.png"; "b.png"; "c.png"; "d.png"; "e.png"; "f.png"; "g"]
    "img" 2 1 (World [" Y "] [] pics)
  = (Ok true,
     World []
       [Print (nl ++ "=== PREVIEW OF CHANGES ===");
        Print "Old names -> New names";
        Print rule;
        Print "a.png -> img_a.png"; Print "b.png -> img_b.png";
        Print "c.png -> img_c.png"; Print "d.png -> img_d.png";
        Print "e.png -> img_e.png";
        Print "... and 2 more files";
        Prompt (nl ++ "Proceed with renaming? (y/n): ")]
       pics).
Proof.
  exact (preview_shows_first_five "pics"
           ["a.png"; "b.png"; "c.png"; "d.png"; "e.png"; "f.png"; "g"]
           "img" 2 1 (World [" Y "] [] pics) " Y " [] eq_refl).
Defined.

Lemma confirmed_run_reports_count_witness :
  let w0 := World ["pics"; "photo"; "1"; ""; ".png"; "y"] [] crowded in
  exists wr,
    fst (main w0) = Ok tt
    /\ fs (snd (main w0)) = fs wr
    /\ trace (snd (main w0))
       = (trace wr
          ++ [Print (nl ++ "=== RENAMING COMPLETE ===");
              Print "Successfully renamed 1 out of 3 files"])%list.
Proof.
  intros w0.
  set (wp := snd (get_user_preferences w0)).
  set (w := snd (get_files_to_rename "pics" ".png" wp)).
  assert (Ep : get_user_preferences w0
               = (Ok (Some (Preferences "pics" "photo" 1 1 ".png")), wp))
    by (vm_compute; reflexivity).
  assert (Ef : get_files_to_rename "pics" ".png" wp
               = (Ok (Some ["x.png"; "photo_1.png"; "y.png"]), w))
    by (vm_compute; reflexivity).
  assert (Ein : stdin w = ["y"]) by (vm_compute; reflexivity).
  assert (Hyes : String.eqb (lower (strip "y")) "y" = true) by reflexivity.
  destruct (confirmed_run_reports_count w0 (Preferences "pics" "photo" 1 1 ".png")
              wp "x.png" ["photo_1.png"; "y.png"] w "y" [] Ep Ef Ein Hyes)
    as (wg & count & wr & Eg & Er & Em & _).
  assert (Hcount : count = 1).
  { assert (Hg : wg = snd (preview_changes "pics" ["x.png"; "photo_1.png"; "y.png"]
                             "photo" 1 1 w)) by (cbn [directory common_name
                             numbering_style start_index] in Eg; now rewrite Eg).
    subst wg. cbn [directory common_name numbering_style start_index] in Er.
    vm_compute in Er. now injection Er as <- _. }
  subst count. exists wr. rewrite Em. repeat split.
Defined.

Lemma main_crash_renames_nothing_witness :
  let w := World ["pics"; "photo"] [] pics in
  fst (main w) = Raise EOFError
  /\ stdin (snd (main w)) = []
  /\ fs (snd (main w)) = pics.
Proof.
  intros w.
  assert (E : main w = (Raise EOFError, snd (main w))) by (vm_compute; reflexivity).
  destruct (main_crash_renames_nothing w (snd (main w)) E) as (Hin & Hfs & _).
  split; [reflexivity|]. split; [exact Hin | exact Hfs].
Defined.
